(** * SeaBuddy backend: the sync routes over a relational store

    A shallow embedding of the sync router of [seabuddy-backend]
    ([routes/sync.routes.ts], mounted on [/api/sync] by [app.ts]: the routes
    [POST /api/sync] and [GET /api/sync/status]) together with the parts of
    [db/schema.ts], [utils/validation.ts], [middleware/error.ts] and
    [routes/resources.routes.ts] that decide what these handlers do; then
    of the routes of the mood, journal, check-in and resources routers that
    take a row by its [id], and of the function of the client that builds
    the changes it pushes.

    Conventions of the embedding.

    - A table is a finite map from its primary key [id] to the remaining
      columns of the row; the statements the handlers issue are functions
      on these maps.  [NOT NULL], [varchar(n)], [integer] and primary-key
      constraints are checked where a statement writes; foreign keys to [tenants] and
      [users] are not (the handlers never write these tables and the caller
      is taken to exist).
    - A pushed change is the JavaScript object the handler spreads into a
      statement: one [field] per column, a key being absent, [null], or a
      value of the column's type.  Timestamps travel as ISO-8601 strings
      and are kept as the instant they denote (milliseconds since the
      epoch); such a string is truthy.  A time in a change is always this
      text and never a [Date]: where the spread carries it into a statement,
      drizzle's encoder of the timestamp column calls [toISOString] on it
      and throws before the statement is sent.  Every change carries its
      [id].
    - A text is the list of its characters, taken below code point 256: its
      length is the one [varchar(n)] and the schemas count.  Identifiers
      are compared as texts, which is the comparison of the [uuid] columns
      for identifiers written in the form the store prints them; the
      properties that depend on it say so.
    - A handler is a computation over a [World]: the database, the server
      clock and the trace of statements sent so far.  The clock is an
      oracle [w_clock]; time passes at each [await] on the database and
      nowhere else, so the [new Date()] calls that build one statement and
      the [defaultNow()] columns this statement leaves out denote the same
      instant.  Nothing opens a transaction: an exception leaves the
      world as the statements before it made it. *)

From stdpp Require Import base option list gmap strings pretty fin_maps.
From Stdlib Require Import ZArith Lia.

Local Open Scope string_scope.
Local Open Scope list_scope.
Local Open Scope Z_scope.

(** ** Values *)

Abbreviation uuid := string (only parsing).
Abbreviation timestamp := Z (only parsing).

(** A key of a request object. *)
Inductive field (A : Type) : Type :=
| Absent            (* the key is missing, or [undefined] *)
| Null              (* JSON [null] *)
| Val (a : A).
Arguments Absent {A}.
Arguments Null {A}.
Arguments Val {A} a.

(** [a || b] on two keys: [undefined] and [null] are falsy. *)
Definition js_or {A} (a b : field A) : field A :=
  match a with
  | Val _ => a
  | _ => b
  end.

(** [new Date(v)]: [None] is [Invalid Date]; [new Date(null)] is the epoch. *)
Definition Date_of (v : field timestamp) : option timestamp :=
  match v with
  | Val t => Some t
  | Null => Some 0
  | Absent => None
  end.

(** [d > serverDate] on dates; every comparison with [Invalid Date] is false. *)
Definition date_gt (d : option timestamp) (serverDate : timestamp) : bool :=
  match d with
  | Some t => bool_decide (serverDate < t)
  | None => false
  end.

Inductive role := crew | admin | psychologist.

Inductive table :=
| mood_logs | journal_entries | check_ins | resources_table | sync_metadata.

(** What a statement throws: the store's refusals, and the [TypeError]
    ([value.toISOString is not a function]) of drizzle's timestamp encoder
    on a value that is no [Date], thrown while the statement is built. *)
Inductive db_error :=
| NotNullViolation (t : table) (column : string)
| ValueTooLong (t : table) (column : string)
| NumericValueOutOfRange (t : table) (column : string)
| UniqueViolation (t : table)
| TypeError.

(** A time in the object given to [values] or [set]: the text of the
    pushed change, or a [Date] the handler made. *)
Inductive time_value :=
| Text (t : timestamp)
| DateObject (t : timestamp).

Inductive result (A : Type) : Type :=
| Ok (a : A)
| Throw (e : db_error).
Arguments Ok {A} a.
Arguments Throw {A} e.

#[export] Instance result_ret : MRet result := λ A a, Ok a.
#[export] Instance result_bind : MBind result := λ A B k r,
  match r with
  | Ok a => k a
  | Throw e => Throw e
  end.

(** ** Column writes

    What a statement stores in one column, by the column's declaration in
    [db/schema.ts].  drizzle leaves an [undefined] key out of the statement. *)
Module Col.

(** [INSERT] into a [NOT NULL] column without default. *)
Definition required {A} (t : table) (c : string) (v : field A) : result A :=
  match v with
  | Val a => Ok a
  | _ => Throw (NotNullViolation t c)
  end.

(** [INSERT] into a [NOT NULL] column with default [d]. *)
Definition defaulted {A} (t : table) (c : string) (d : A) (v : field A) : result A :=
  match v with
  | Val a => Ok a
  | Absent => Ok d
  | Null => Throw (NotNullViolation t c)
  end.

(** [INSERT] into a nullable column. *)
Definition nullable {A} (v : field A) : option A :=
  match v with
  | Val a => Some a
  | _ => None
  end.

(** [UPDATE ... SET] of a [NOT NULL] column holding [old]. *)
Definition set_required {A} (t : table) (c : string) (old : A) (v : field A) : result A :=
  match v with
  | Val a => Ok a
  | Absent => Ok old
  | Null => Throw (NotNullViolation t c)
  end.

(** [UPDATE ... SET] of a nullable column holding [old]. *)
Definition set_nullable {A} (old : option A) (v : field A) : option A :=
  match v with
  | Val a => Some a
  | Absent => old
  | Null => None
  end.

(** [mapToDriverValue] of a timestamp column, [value.toISOString()]; drizzle
    does not encode [null]. *)
Definition time (v : field time_value) : result (field timestamp) :=
  match v with
  | Val (DateObject t) => Ok (Val t)
  | Val (Text _) => Throw TypeError
  | Null => Ok Null
  | Absent => Ok Absent
  end.

(** The same on a key that only the change can bring. *)
Definition time_text (v : field timestamp) : result unit :=
  match v with
  | Val _ => Throw TypeError
  | _ => Ok tt
  end.

(** [integer]: four bytes. *)
Definition integer (t : table) (c : string) (v : field Z) : result unit :=
  match v with
  | Val n =>
      if bool_decide (-2147483648 ≤ n ≤ 2147483647) then Ok tt
      else Throw (NumericValueOutOfRange t c)
  | _ => Ok tt
  end.

(** [varchar(n)]. *)
Definition varchar (t : table) (c : string) (n : nat) (s : string) : result string :=
  if bool_decide (String.length s ≤ n)%nat then Ok s else Throw (ValueTooLong t c).

Definition varchar_opt (t : table) (c : string) (n : nat) (s : option string)
  : result (option string) :=
  match s with
  | Some s => s' ← varchar t c n s; Ok (Some s')
  | None => Ok None
  end.

End Col.

(** ** Rows of the three synced tables

    [mood_logs], [journal_entries] and [check_ins] share the columns of
    [Row]; [attrs] holds the columns of the one table. *)
Module Row.
Record t (A : Type) : Type := mk {
  tenantId : uuid;
  userId : uuid;
  clientCreatedAt : timestamp;
  createdAt : timestamp;
  updatedAt : timestamp;
  syncedAt : option timestamp;
  isDeleted : bool;
  attrs : A;
}.
Arguments mk {A}.
Arguments tenantId {A}.
Arguments userId {A}.
Arguments clientCreatedAt {A}.
Arguments createdAt {A}.
Arguments updatedAt {A}.
Arguments syncedAt {A}.
Arguments isDeleted {A}.
Arguments attrs {A}.
End Row.

(** The object of one pushed change, as the JSON body brings it: its times
    are texts. *)
Module Change.
Record t (P : Type) : Type := mk {
  id : uuid;
  tenantId : field uuid;
  userId : field uuid;
  clientCreatedAt : field timestamp;
  createdAt : field timestamp;
  updatedAt : field timestamp;
  syncedAt : field timestamp;
  isDeleted : field bool;
  attrs : P;
}.
Arguments mk {P}.
Arguments id {P}.
Arguments tenantId {P}.
Arguments userId {P}.
Arguments clientCreatedAt {P}.
Arguments createdAt {P}.
Arguments updatedAt {P}.
Arguments syncedAt {P}.
Arguments isDeleted {P}.
Arguments attrs {P}.
End Change.

(** The object the handler gives to [values] or [set]: the keys of the
    change as the spread copies them, and the keys the handler writes after
    the spread. *)
Module Columns.
Record t (P : Type) : Type := mk {
  id : uuid;
  tenantId : field uuid;
  userId : field uuid;
  clientCreatedAt : field time_value;
  createdAt : field time_value;
  updatedAt : field time_value;
  syncedAt : field time_value;
  isDeleted : field bool;
  attrs : P;
}.
Arguments mk {P}.
Arguments id {P}.
Arguments tenantId {P}.
Arguments userId {P}.
Arguments clientCreatedAt {P}.
Arguments createdAt {P}.
Arguments updatedAt {P}.
Arguments syncedAt {P}.
Arguments isDeleted {P}.
Arguments attrs {P}.
End Columns.

(** The parameters of the statement drizzle built from such an object. *)
Module Params.
Record t (P : Type) : Type := mk {
  id : uuid;
  tenantId : field uuid;
  userId : field uuid;
  clientCreatedAt : field timestamp;
  createdAt : field timestamp;
  updatedAt : field timestamp;
  syncedAt : field timestamp;
  isDeleted : field bool;
  attrs : P;
}.
Arguments mk {P}.
Arguments id {P}.
Arguments tenantId {P}.
Arguments userId {P}.
Arguments clientCreatedAt {P}.
Arguments createdAt {P}.
Arguments updatedAt {P}.
Arguments syncedAt {P}.
Arguments isDeleted {P}.
Arguments attrs {P}.
End Params.

Module MoodLog.
Record attrs := mk {
  mood : string;               (* varchar(50) NOT NULL *)
  intensity : option Z;
  notes : option string;
}.
Record patch := mkp {
  p_mood : field string;
  p_intensity : field Z;
  p_notes : field string;
}.

(** The table has no time column of its own. *)
Definition encode (p : patch) : result unit := Ok tt.

Definition insert (p : patch) : result attrs :=
  m ← Col.required mood_logs "mood" (p_mood p);
  m ← Col.varchar mood_logs "mood" 50 m;
  Col.integer mood_logs "intensity" (p_intensity p) ;;
  Ok (mk m (Col.nullable (p_intensity p)) (Col.nullable (p_notes p))).

Definition update (p : patch) (old : attrs) : result attrs :=
  m ← Col.set_required mood_logs "mood" (mood old) (p_mood p);
  m ← Col.varchar mood_logs "mood" 50 m;
  Col.integer mood_logs "intensity" (p_intensity p) ;;
  Ok (mk m (Col.set_nullable (intensity old) (p_intensity p))
           (Col.set_nullable (notes old) (p_notes p))).
End MoodLog.

Module JournalEntry.
Record attrs := mk {
  title : option string;       (* varchar(500) *)
  content : string;            (* NOT NULL *)
  mood : option string;        (* varchar(50) *)
  isPrivate : bool;            (* NOT NULL DEFAULT true *)
}.
Record patch := mkp {
  p_title : field string;
  p_content : field string;
  p_mood : field string;
  p_isPrivate : field bool;
}.

(** The table has no time column of its own. *)
Definition encode (p : patch) : result unit := Ok tt.

Definition insert (p : patch) : result attrs :=
  t ← Col.varchar_opt journal_entries "title" 500 (Col.nullable (p_title p));
  c ← Col.required journal_entries "content" (p_content p);
  m ← Col.varchar_opt journal_entries "mood" 50 (Col.nullable (p_mood p));
  pr ← Col.defaulted journal_entries "is_private" true (p_isPrivate p);
  Ok (mk t c m pr).

Definition update (p : patch) (old : attrs) : result attrs :=
  t ← Col.varchar_opt journal_entries "title" 500
            (Col.set_nullable (title old) (p_title p));
  c ← Col.set_required journal_entries "content" (content old) (p_content p);
  m ← Col.varchar_opt journal_entries "mood" 50
            (Col.set_nullable (mood old) (p_mood p));
  pr ← Col.set_required journal_entries "is_private" (isPrivate old) (p_isPrivate p);
  Ok (mk t c m pr).
End JournalEntry.

Module CheckIn.
Record attrs := mk {
  scheduledFor : timestamp;          (* NOT NULL *)
  completedAt : option timestamp;
  mood : option string;              (* varchar(50) *)
  responses : option string;         (* jsonb, kept as its text *)
  needsAttention : bool;             (* NOT NULL DEFAULT false *)
  reviewedBy : option uuid;
  reviewedAt : option timestamp;
  reviewNotes : option string;
}.
Record patch := mkp {
  p_scheduledFor : field timestamp;
  p_completedAt : field timestamp;
  p_mood : field string;
  p_responses : field string;
  p_needsAttention : field bool;
  p_reviewedBy : field uuid;
  p_reviewedAt : field timestamp;
  p_reviewNotes : field string;
}.

(** [scheduledFor], [completedAt] and [reviewedAt] are timestamp columns,
    and a pushed change brings them as texts. *)
Definition encode (p : patch) : result unit :=
  Col.time_text (p_scheduledFor p) ;;
  Col.time_text (p_completedAt p) ;;
  Col.time_text (p_reviewedAt p).

(** A change that brings one of the three times is refused by the encoder;
    the store sees the others. *)
Definition insert (p : patch) : result attrs :=
  encode p ;;
  s ← Col.required check_ins "scheduled_for" (p_scheduledFor p);
  m ← Col.varchar_opt check_ins "mood" 50 (Col.nullable (p_mood p));
  n ← Col.defaulted check_ins "needs_attention" false (p_needsAttention p);
  Ok (mk s (Col.nullable (p_completedAt p)) m (Col.nullable (p_responses p)) n
         (Col.nullable (p_reviewedBy p)) (Col.nullable (p_reviewedAt p))
         (Col.nullable (p_reviewNotes p))).

Definition update (p : patch) (old : attrs) : result attrs :=
  encode p ;;
  s ← Col.set_required check_ins "scheduled_for" (scheduledFor old) (p_scheduledFor p);
  m ← Col.varchar_opt check_ins "mood" 50 (Col.set_nullable (mood old) (p_mood p));
  n ← Col.set_required check_ins "needs_attention" (needsAttention old)
            (p_needsAttention p);
  Ok (mk s (Col.set_nullable (completedAt old) (p_completedAt p)) m
         (Col.set_nullable (responses old) (p_responses p)) n
         (Col.set_nullable (reviewedBy old) (p_reviewedBy p))
         (Col.set_nullable (reviewedAt old) (p_reviewedAt p))
         (Col.set_nullable (reviewNotes old) (p_reviewNotes p))).
End CheckIn.

Module Resource.
Record t := mk {
  tenantId : option uuid;            (* null = global resource *)
  title : string;
  description : option string;
  type : string;
  content : option string;
  url : option string;
  thumbnailUrl : option string;
  category : option string;
  tags : option (list string);
  offlineAvailable : bool;
  estimatedMinutes : option Z;
  isPublished : bool;
  createdAt : timestamp;
  updatedAt : timestamp;
}.
End Resource.

Module SyncMetadata.
Record t := mk {
  tenantId : uuid;
  userId : uuid;
  deviceId : string;
  tableName : string;
  lastSyncedAt : timestamp;
  lastRecordId : option uuid;
  syncCursor : option string;
  createdAt : timestamp;
  updatedAt : timestamp;
}.
End SyncMetadata.

(** ** The database *)
Record DB := mkDB {
  moodLogs : gmap uuid (Row.t MoodLog.attrs);
  journalEntries : gmap uuid (Row.t JournalEntry.attrs);
  checkIns : gmap uuid (Row.t CheckIn.attrs);
  resources : gmap uuid Resource.t;
  syncMetadata : gmap uuid SyncMetadata.t;
}.

(** One of the three synced tables: where it lives in the database and how
    its own columns are written.  The sync handler has one push loop per
    table and the three loops are the same text up to the table; they are
    embedded once, over this interface.  [ent_encode] is drizzle's encoding
    of the table's own columns, [ent_insert] and [ent_update] are what the
    store writes into them. *)
Class Entity (A P : Type) := {
  ent_table : table;
  ent_get : DB → gmap uuid (Row.t A);
  ent_set : gmap uuid (Row.t A) → DB → DB;
  ent_encode : P → result unit;
  ent_insert : P → result A;
  ent_update : P → A → result A;
  ent_get_set : ∀ m d, ent_get (ent_set m d) = m;
}.

#[export, refine] Instance moodLogs_entity : Entity MoodLog.attrs MoodLog.patch := {
  ent_table := mood_logs;
  ent_get := moodLogs;
  ent_set m d := mkDB m (journalEntries d) (checkIns d) (resources d) (syncMetadata d);
  ent_encode := MoodLog.encode;
  ent_insert := MoodLog.insert;
  ent_update := MoodLog.update;
}.
Proof. reflexivity. Defined.

#[export, refine] Instance journalEntries_entity
  : Entity JournalEntry.attrs JournalEntry.patch := {
  ent_table := journal_entries;
  ent_get := journalEntries;
  ent_set m d := mkDB (moodLogs d) m (checkIns d) (resources d) (syncMetadata d);
  ent_encode := JournalEntry.encode;
  ent_insert := JournalEntry.insert;
  ent_update := JournalEntry.update;
}.
Proof. reflexivity. Defined.

#[export, refine] Instance checkIns_entity : Entity CheckIn.attrs CheckIn.patch := {
  ent_table := check_ins;
  ent_get := checkIns;
  ent_set m d := mkDB (moodLogs d) (journalEntries d) m (resources d) (syncMetadata d);
  ent_encode := CheckIn.encode;
  ent_insert := CheckIn.insert;
  ent_update := CheckIn.update;
}.
Proof. reflexivity. Defined.

(** ** Conditions of a [where] clause

    drizzle's [eq], [gt], [and], [or] and [isNull] build SQL operators, and
    SQL compares in three-valued logic: a comparison with [NULL], also
    [NULL = NULL], is UNKNOWN, and a row is selected only where the
    condition is TRUE.  A nullable column, and a bound parameter that may be
    [null], is an [option]. *)
Module Sql.
Definition cond := option bool.

Definition eq {A} `{EqDecision A} (column value : option A) : cond :=
  match column, value with
  | Some a, Some b => Some (bool_decide (a = b))
  | _, _ => None
  end.

Definition gt (column value : option Z) : cond :=
  match column, value with
  | Some a, Some b => Some (bool_decide (b < a))
  | _, _ => None
  end.

Definition isNull {A} (column : option A) : cond :=
  match column with
  | None => Some true
  | Some _ => Some false
  end.

Definition and2 (a b : cond) : cond :=
  match a, b with
  | Some false, _ | _, Some false => Some false
  | Some true, Some true => Some true
  | _, _ => None
  end.

Definition or2 (a b : cond) : cond :=
  match a, b with
  | Some true, _ | _, Some true => Some true
  | Some false, Some false => Some false
  | _, _ => None
  end.

Definition and (cs : list cond) : cond := foldr and2 (Some true) cs.
Definition or (cs : list cond) : cond := foldr or2 (Some false) cs.

Definition holds (c : cond) : bool :=
  match c with
  | Some true => true
  | _ => false
  end.

(** [SELECT ... WHERE c]; without [ORDER BY] the order is the store's. *)
Definition select {R} (c : uuid → R → cond) (m : gmap uuid R) : list (uuid * R) :=
  List.filter (λ kr, holds (c kr.1 kr.2)) (map_to_list m).
End Sql.

(** ** Handlers as computations on a world *)

Inductive db_op :=
| FindFirst (t : table)
| FindMany (t : table)
| Insert (t : table)
| Update (t : table).

Record World := mkWorld {
  w_db : DB;
  w_clock : nat → timestamp;       (* the server clock after n statements *)
  w_uuid : nat → uuid;             (* gen_random_uuid() in the n-th statement *)
  w_trace : list db_op;            (* statements sent, newest first *)
}.

Definition M (A : Type) : Type := World → result A * World.

#[export] Instance M_ret : MRet M := λ A a w, (Ok a, w).
#[export] Instance M_bind : MBind M := λ A B k m w,
  match m w with
  | (Ok a, w') => k a w'
  | (Throw e, w') => (Throw e, w')
  end.

(** The instant at which the handler runs in [w]. *)
Definition now (w : World) : timestamp := w_clock w (length (w_trace w)).

Definition new_Date : M timestamp := λ w, (Ok (now w), w).

(** A statement [op] was awaited and left the database as [d]. *)
Definition sent (op : db_op) (d : DB) (w : World) : World :=
  mkWorld d (w_clock w) (w_uuid w) (op :: w_trace w).

Fixpoint for_of {A} (l : list A) (body : A → M unit) : M unit :=
  match l with
  | [] => mret tt
  | x :: l' => body x ;; for_of l' body
  end.

Section Statements.
Context {A P : Type} `{Entity A P}.

(** [db.query.<table>.findFirst({ where })] *)
Definition findFirst (where_ : uuid → Row.t A → Sql.cond) : M (option (uuid * Row.t A)) :=
  λ w, (Ok (head (Sql.select where_ (ent_get (w_db w)))),
        sent (FindFirst ent_table) (w_db w) w).

(** [db.query.<table>.findMany({ where })] *)
Definition findMany (where_ : uuid → Row.t A → Sql.cond) : M (list (uuid * Row.t A)) :=
  λ w, (Ok (Sql.select where_ (ent_get (w_db w))),
        sent (FindMany ent_table) (w_db w) w).

(** drizzle builds the statement: every value is encoded by its column.
    Only the timestamp columns have an encoder that can throw. *)
Definition encode (values : Columns.t P) : result (Params.t P) :=
  clientCreatedAt ← Col.time (Columns.clientCreatedAt values);
  createdAt ← Col.time (Columns.createdAt values);
  updatedAt ← Col.time (Columns.updatedAt values);
  syncedAt ← Col.time (Columns.syncedAt values);
  ent_encode (Columns.attrs values) ;;
  Ok (Params.mk (Columns.id values) (Columns.tenantId values) (Columns.userId values)
                clientCreatedAt createdAt updatedAt syncedAt (Columns.isDeleted values)
                (Columns.attrs values)).

(** The row the store writes for [INSERT ... VALUES (values)] at instant [t]. *)
Definition insert_row (t : timestamp) (values : Params.t P) : result (Row.t A) :=
  tenantId ← Col.required ent_table "tenant_id" (Params.tenantId values);
  userId ← Col.required ent_table "user_id" (Params.userId values);
  attrs ← ent_insert (Params.attrs values);
  clientCreatedAt ←
    Col.required ent_table "client_created_at" (Params.clientCreatedAt values);
  createdAt ← Col.defaulted ent_table "created_at" t (Params.createdAt values);
  updatedAt ← Col.defaulted ent_table "updated_at" t (Params.updatedAt values);
  isDeleted ← Col.defaulted ent_table "is_deleted" false (Params.isDeleted values);
  Ok (Row.mk tenantId userId clientCreatedAt createdAt updatedAt
             (Col.nullable (Params.syncedAt values)) isDeleted attrs).

(** [db.insert(<table>).values(values)].  An error of the encoder is thrown
    while the statement is built: nothing is sent. *)
Definition db_insert (values : Columns.t P) : M unit := λ w,
  let m := ent_get (w_db w) in
  match encode values with
  | Throw e => (Throw e, w)
  | Ok values =>
      match insert_row (now w) values with
      | Throw e => (Throw e, sent (Insert ent_table) (w_db w) w)
      | Ok row =>
          match m !! Params.id values with
          | Some _ =>
              (Throw (UniqueViolation ent_table), sent (Insert ent_table) (w_db w) w)
          | None =>
              (Ok tt, sent (Insert ent_table)
                           (ent_set (<[Params.id values := row]> m) (w_db w)) w)
          end
      end
  end.

(** The columns of [old] after the store ran [UPDATE ... SET (set)]. *)
Definition update_row (set : Params.t P) (old : Row.t A) : result (Row.t A) :=
  tenantId ←
    Col.set_required ent_table "tenant_id" (Row.tenantId old) (Params.tenantId set);
  userId ← Col.set_required ent_table "user_id" (Row.userId old) (Params.userId set);
  attrs ← ent_update (Params.attrs set) (Row.attrs old);
  clientCreatedAt ←
    Col.set_required ent_table "client_created_at" (Row.clientCreatedAt old)
      (Params.clientCreatedAt set);
  createdAt ←
    Col.set_required ent_table "created_at" (Row.createdAt old) (Params.createdAt set);
  updatedAt ←
    Col.set_required ent_table "updated_at" (Row.updatedAt old) (Params.updatedAt set);
  isDeleted ←
    Col.set_required ent_table "is_deleted" (Row.isDeleted old) (Params.isDeleted set);
  Ok (Row.mk tenantId userId clientCreatedAt createdAt updatedAt
             (Col.set_nullable (Row.syncedAt old) (Params.syncedAt set)) isDeleted attrs).

(** [db.update(<table>).set(set).where(eq(<table>.id, where_id))].  The
    spread puts the change's [id] into [set] as well: the row moves to
    that key.  An error of the encoder is thrown while the statement is
    built: nothing is sent. *)
Definition db_update (set : Columns.t P) (where_id : uuid) : M unit := λ w,
  let m := ent_get (w_db w) in
  let unchanged := sent (Update ent_table) (w_db w) w in
  match encode set with
  | Throw e => (Throw e, w)
  | Ok set =>
      match m !! where_id with
      | None => (Ok tt, unchanged)
      | Some old =>
          match update_row set old with
          | Throw e => (Throw e, unchanged)
          | Ok row =>
              if decide (Params.id set = where_id) then
                (Ok tt,
                 sent (Update ent_table) (ent_set (<[where_id := row]> m) (w_db w)) w)
              else
                match m !! Params.id set with
                | Some _ => (Throw (UniqueViolation ent_table), unchanged)
                | None =>
                    (Ok tt, sent (Update ent_table)
                                 (ent_set (<[Params.id set := row]> (delete where_id m))
                                          (w_db w)) w)
                end
          end
      end
  end.

(** A time the spread copies from the change. *)
Definition spread (v : field timestamp) : field time_value :=
  match v with
  | Val t => Val (Text t)
  | Null => Null
  | Absent => Absent
  end.

(** [{ ...log, tenantId, userId, syncedAt: new Date(), updatedAt: new Date() }] *)
Definition update_set (log : Change.t P) (tenantId userId : uuid) (t : timestamp)
  : Columns.t P :=
  Columns.mk (Change.id log) (Val tenantId) (Val userId)
             (spread (Change.clientCreatedAt log)) (spread (Change.createdAt log))
             (Val (DateObject t)) (Val (DateObject t)) (Change.isDeleted log)
             (Change.attrs log).

(** [{ ...log, tenantId, userId, syncedAt: new Date() }] *)
Definition insert_values (log : Change.t P) (tenantId userId : uuid) (t : timestamp)
  : Columns.t P :=
  Columns.mk (Change.id log) (Val tenantId) (Val userId)
             (spread (Change.clientCreatedAt log)) (spread (Change.createdAt log))
             (spread (Change.updatedAt log)) (Val (DateObject t)) (Change.isDeleted log)
             (Change.attrs log).

(** The row the handler's [UPDATE] of [old] leaves, and the row its [INSERT]
    writes, at instant [t]: the statement is built, then run. *)
Definition updated_row (log : Change.t P) (tenantId userId : uuid) (t : timestamp)
    (old : Row.t A) : result (Row.t A) :=
  set ← encode (update_set log tenantId userId t);
  update_row set old.

Definition inserted_row (log : Change.t P) (tenantId userId : uuid) (t : timestamp)
  : result (Row.t A) :=
  values ← encode (insert_values log tenantId userId t);
  insert_row t values.

(** [new Date(log.updatedAt || log.clientCreatedAt)] *)
Definition clientDate (log : Change.t P) : option timestamp :=
  Date_of (js_or (Change.updatedAt log) (Change.clientCreatedAt log)).

(** The body of one of the three push loops of [POST /api/sync]. *)
Definition push_change (tenantId userId : uuid) (log : Change.t P) : M unit :=
  existing ← findFirst (λ id _, Sql.eq (Some id) (Some (Change.id log)));
  match existing with
  | Some (_, existing) =>
      let serverDate := Row.updatedAt existing in
      if date_gt (clientDate log) serverDate then
        t ← new_Date;
        db_update (update_set log tenantId userId t) (Change.id log)
      else mret tt
  | None =>
      t ← new_Date;
      db_insert (insert_values log tenantId userId t)
  end.

(** [if (changes.<table> && changes.<table>.length > 0) for (const log of ...)] *)
Definition push_changes (tenantId userId : uuid) (logs : option (list (Change.t P)))
  : M unit :=
  match logs with
  | Some logs =>
      if bool_decide (0 < length logs)%nat
      then for_of logs (push_change tenantId userId)
      else mret tt
  | None => mret tt
  end.

(** The [where] of the pull of one synced table. *)
Definition pull_where (tenantId userId : uuid) (syncCutoffDate : timestamp)
  : uuid → Row.t A → Sql.cond :=
  λ _ r, Sql.and [ Sql.eq (Some (Row.tenantId r)) (Some tenantId);
                   Sql.eq (Some (Row.userId r)) (Some userId);
                   Sql.gt (Some (Row.updatedAt r)) (Some syncCutoffDate) ].
End Statements.

(** ** Requests and responses *)

(** What [tenantMiddleware] attaches to the request.  The two identifiers
    are texts, which the handlers hand to the store as parameters of
    [uuid] columns. *)
Module AuthRequest.
Record t := mk {
  tenantId : uuid;
  userId : uuid;
  userRole : role;
}.
End AuthRequest.

(** The body of [POST /api/sync] once [validate(syncRequestSchema)] let it
    through: the schema checks the elements of the three arrays with
    [z.any()], that is, not at all. *)
Module SyncRequest.
Record changes_t := mkc {
  moodLogs : option (list (Change.t MoodLog.patch));
  journalEntries : option (list (Change.t JournalEntry.patch));
  checkIns : option (list (Change.t CheckIn.patch));
}.
Record t := mk {
  deviceId : string;
  lastSyncAt : option timestamp;
  changes : changes_t;
}.
End SyncRequest.

Module SyncResponse.
Record serverChanges_t := mkc {
  moodLogs : list (uuid * Row.t MoodLog.attrs);
  journalEntries : list (uuid * Row.t JournalEntry.attrs);
  checkIns : list (uuid * Row.t CheckIn.attrs);
  resources : list (uuid * Resource.t);
}.
Record t := mk {
  success : bool;
  serverChanges : serverChanges_t;
  conflicts : list unit;
  lastSyncAt : timestamp;
}.
End SyncResponse.

Inductive error_text :=
| Literal (s : string)
| MessageOf (e : db_error).       (* [err.message] of the error thrown *)

Inductive json :=
| SyncJson (r : SyncResponse.t)
| DataJson (data : list (uuid * SyncMetadata.t))      (* { success: true, data } *)
| ErrorJson (error : error_text).                     (* { success: false, error } *)

Record Response := mkResponse {
  status : nat;
  body : json;
}.

(** ** [POST /api/sync] *)

(** The [where] of the resources pull:
    [and(or(eq(resources.tenantId, tenantId), eq(resources.tenantId, null)),
         eq(resources.isPublished, true), gt(resources.updatedAt, syncCutoffDate))] *)
Definition resources_where (tenantId : uuid) (syncCutoffDate : timestamp)
  : uuid → Resource.t → Sql.cond :=
  λ _ r, Sql.and [ Sql.or [ Sql.eq (Resource.tenantId r) (Some tenantId);
                            Sql.eq (Resource.tenantId r) None ];
                   Sql.eq (Some (Resource.isPublished r)) (Some true);
                   Sql.gt (Some (Resource.updatedAt r)) (Some syncCutoffDate) ].

Definition findMany_resources (where_ : uuid → Resource.t → Sql.cond)
  : M (list (uuid * Resource.t)) :=
  λ w, (Ok (Sql.select where_ (resources (w_db w))),
        sent (FindMany resources_table) (w_db w) w).

Definition findFirst_syncMetadata (where_ : uuid → SyncMetadata.t → Sql.cond)
  : M (option (uuid * SyncMetadata.t)) :=
  λ w, (Ok (head (Sql.select where_ (syncMetadata (w_db w)))),
        sent (FindFirst sync_metadata) (w_db w) w).

Definition findMany_syncMetadata (where_ : uuid → SyncMetadata.t → Sql.cond)
  : M (list (uuid * SyncMetadata.t)) :=
  λ w, (Ok (Sql.select where_ (syncMetadata (w_db w))),
        sent (FindMany sync_metadata) (w_db w) w).

Definition set_syncMetadata (m : gmap uuid SyncMetadata.t) (d : DB) : DB :=
  mkDB (moodLogs d) (journalEntries d) (checkIns d) (resources d) m.

(** [db.update(syncMetadata).set({ lastSyncedAt, updatedAt }).where(eq(syncMetadata.id, id))] *)
Definition update_syncMetadata (lastSyncedAt updatedAt : timestamp) (id : uuid) : M unit :=
  λ w,
    let set r :=
      SyncMetadata.mk (SyncMetadata.tenantId r) (SyncMetadata.userId r)
        (SyncMetadata.deviceId r) (SyncMetadata.tableName r) lastSyncedAt
        (SyncMetadata.lastRecordId r) (SyncMetadata.syncCursor r)
        (SyncMetadata.createdAt r) updatedAt in
    (Ok tt, sent (Update sync_metadata)
                 (set_syncMetadata (alter set id (syncMetadata (w_db w))) (w_db w)) w).

(** [db.insert(syncMetadata).values({ tenantId, userId, deviceId, tableName, lastSyncedAt })]:
    [id] is [defaultRandom()], [createdAt] and [updatedAt] are [defaultNow()]. *)
Definition insert_syncMetadata (tenantId userId : uuid) (deviceId tableName : string)
    (lastSyncedAt : timestamp) : M unit :=
  λ w,
    let unchanged := sent (Insert sync_metadata) (w_db w) w in
    let id := w_uuid w (length (w_trace w)) in
    match
      d ← Col.varchar sync_metadata "device_id" 255 deviceId;
      n ← Col.varchar sync_metadata "table_name" 100 tableName;
      Ok (SyncMetadata.mk tenantId userId d n lastSyncedAt None None (now w) (now w))
    with
    | Throw e => (Throw e, unchanged)
    | Ok row =>
        match syncMetadata (w_db w) !! id with
        | Some _ => (Throw (UniqueViolation sync_metadata), unchanged)
        | None =>
            (Ok tt, sent (Insert sync_metadata)
                         (set_syncMetadata (<[id := row]> (syncMetadata (w_db w))) (w_db w)) w)
        end
    end.

Definition tables : list string :=
  ["mood_logs"; "journal_entries"; "check_ins"; "resources"].

(** The handler given to [asyncHandler] in [router.post('/', ...)]. *)
Definition sync_post (req : AuthRequest.t) (body : SyncRequest.t) : M SyncResponse.t :=
  let deviceId := SyncRequest.deviceId body in
  let lastSyncAt := SyncRequest.lastSyncAt body in
  let changes := SyncRequest.changes body in
  let tenantId := AuthRequest.tenantId req in
  let userId := AuthRequest.userId req in
  (* 1. Apply client changes to server (PUSH) *)
  push_changes tenantId userId (SyncRequest.moodLogs changes) ;;
  push_changes tenantId userId (SyncRequest.journalEntries changes) ;;
  push_changes tenantId userId (SyncRequest.checkIns changes) ;;
  (* 2. Get server changes for client (PULL) *)
  let syncCutoffDate := match lastSyncAt with Some t => t | None => 0 end in
  moodLogs ← findMany (pull_where tenantId userId syncCutoffDate);
  journalEntries ← findMany (pull_where tenantId userId syncCutoffDate);
  checkIns ← findMany (pull_where tenantId userId syncCutoffDate);
  resources ← findMany_resources (resources_where tenantId syncCutoffDate);
  (* 3. Update sync metadata *)
  t ← new_Date;
  for_of tables (λ tableName,
    existing ← findFirst_syncMetadata (λ _ r,
      Sql.and [ Sql.eq (Some (SyncMetadata.tenantId r)) (Some tenantId);
                Sql.eq (Some (SyncMetadata.userId r)) (Some userId);
                Sql.eq (Some (SyncMetadata.deviceId r)) (Some deviceId);
                Sql.eq (Some (SyncMetadata.tableName r)) (Some tableName) ]);
    match existing with
    | Some (id, _) => update_syncMetadata t t id
    | None => insert_syncMetadata tenantId userId deviceId tableName t
    end) ;;
  (* 4. Send response *)
  mret (SyncResponse.mk true
          (SyncResponse.mkc moodLogs journalEntries checkIns resources) [] t).

(** ** [GET /api/sync/status] *)

(** [!deviceId] on [req.query.deviceId]: a missing parameter and the empty
    string are falsy. *)
Definition is_falsy (deviceId : option string) : bool :=
  match deviceId with
  | None => true
  | Some s => bool_decide (s = "")
  end.

Definition status_get (req : AuthRequest.t) (deviceId : option string) : M Response :=
  if is_falsy deviceId then
    mret (mkResponse 400 (ErrorJson (Literal "deviceId is required")))
  else
    metadata ← findMany_syncMetadata (λ _ r,
      Sql.and [ Sql.eq (Some (SyncMetadata.tenantId r)) (Some (AuthRequest.tenantId req));
                Sql.eq (Some (SyncMetadata.userId r)) (Some (AuthRequest.userId req));
                Sql.eq (Some (SyncMetadata.deviceId r)) deviceId ]);
    mret (mkResponse 200 (DataJson metadata)).

(** ** [middleware/error.ts] *)

(** [errorHandler] on an error that is not an [AppError]. *)
Definition errorHandler (production : bool) (err : db_error) : Response :=
  mkResponse 500
    (ErrorJson (if production then Literal "Internal server error" else MessageOf err)).

(** [asyncHandler(fn)]: a rejected promise goes to [next], hence to
    [errorHandler]; the world stays as the handler left it. *)
Definition asyncHandler (production : bool) (fn : M Response) : World → Response * World :=
  λ w, match fn w with
       | (Ok res, w') => (res, w')
       | (Throw err, w') => (errorHandler production err, w')
       end.

(** [router.post('/', validate(syncRequestSchema), asyncHandler(...))] *)
Definition post_sync (production : bool) (req : AuthRequest.t) (body : SyncRequest.t)
  : World → Response * World :=
  asyncHandler production
    (response ← sync_post req body; mret (mkResponse 200 (SyncJson response))).

(** [router.get('/status', asyncHandler(...))] *)
Definition get_sync_status (production : bool) (req : AuthRequest.t)
    (deviceId : option string) : World → Response * World :=
  asyncHandler production (status_get req deviceId).

(** ** A sibling route: [GET /api/resources] in [routes/resources.routes.ts]

    The listing of resources without its optional filters:
    [and(eq(resources.isPublished, true),
         or(eq(resources.tenantId, req.tenantId), isNull(resources.tenantId)))] *)
Definition resources_list_where (tenantId : uuid) : uuid → Resource.t → Sql.cond :=
  λ _ r, Sql.and [ Sql.eq (Some (Resource.isPublished r)) (Some true);
                   Sql.or [ Sql.eq (Resource.tenantId r) (Some tenantId);
                            Sql.isNull (Resource.tenantId r) ] ].

(** ** Instants used by the statements of the theorems *)

(** The instant at which [push_change], started in [w], sends its [INSERT]
    or [UPDATE]: the lookup has been awaited once. *)
Definition write_time (w : World) : timestamp := w_clock w (S (length (w_trace w))).

(** The database a computation leaves behind. *)
Definition db_after {A} (m : M A) (w : World) : DB := w_db (m w).2.

(** The value a key of the change carries, [d] where it carries none. *)
Definition carried_or {A} (v : field A) (d : A) : A :=
  match v with
  | Val a => a
  | _ => d
  end.

(** ** Sample data *)
Module Sample.
(** The clock shows 1000 ms and gains one millisecond per statement. *)
Definition clock : nat → timestamp := λ n, 1000 + Z.of_nat n.

(** [gen_random_uuid()]: a fresh identifier per statement. *)
Definition uuids : nat → uuid := λ n,
  let digits := pretty n in
  String.append
    (String.substring 0 (36 - String.length digits)%nat
                      "00000000-0000-4000-8000-000000000000")
    digits.

Definition world (d : DB) : World := mkWorld d clock uuids [].

Definition tenant_1 : uuid := "c074ea25-2c5f-44b2-9aa6-6eaf7c2dbc0c".
Definition tenant_2 : uuid := "8f91bc3a-7d2e-4c15-b1a4-5e6f7a8b9c0d".
Definition alice_id : uuid := "5ba2e7df-e6e2-4e41-bf55-0e9b7ca4afd8".
Definition bob_id : uuid := "b0b0b0b0-b0b0-4b0b-8b0b-b0b0b0b0b0b0".
Definition device : string := "d3b07384-d9a0-4f1c-8e2b-1a2b3c4d5e6f".

Definition dave_id : uuid := "da7eda7e-da7e-4a7e-8a7e-da7eda7eda7e".

Definition alice : AuthRequest.t := AuthRequest.mk tenant_1 alice_id crew.
Definition bob : AuthRequest.t := AuthRequest.mk tenant_2 bob_id crew.
(** Another crew member of alice's tenant. *)
Definition dave : AuthRequest.t := AuthRequest.mk tenant_1 dave_id crew.

Definition id_M : uuid := "11111111-1111-4111-8111-111111111111".
Definition id_R : uuid := "22222222-2222-4222-8222-222222222222".
Definition id_C : uuid := "cccccccc-cccc-4ccc-8ccc-cccccccccccc".
Definition id_A : uuid := "aaaaaaaa-aaaa-4aaa-8aaa-aaaaaaaaaaaa".
Definition id_B : uuid := "bbbbbbbb-bbbb-4bbb-8bbb-bbbbbbbbbbbb".

(** A mood log of alice, last updated at 500. *)
Definition mood_M : Row.t MoodLog.attrs :=
  Row.mk tenant_1 alice_id 100 110 500 (Some 500) false
         (MoodLog.mk "good" (Some 7) None).

Definition db_M : DB := mkDB {[ id_M := mood_M ]} ∅ ∅ ∅ ∅.
Definition db_empty : DB := mkDB ∅ ∅ ∅ ∅ ∅.

Definition mood_change (id : uuid) (mood : string) (clientCreatedAt updatedAt : field timestamp)
  : Change.t MoodLog.patch :=
  Change.mk id Absent Absent clientCreatedAt Absent updatedAt Absent Absent
            (MoodLog.mkp (Val mood) Absent Absent).

Definition push_moods (logs : list (Change.t MoodLog.patch)) : SyncRequest.t :=
  SyncRequest.mk device None (SyncRequest.mkc (Some logs) None None).

(** A published global resource. *)
Definition resource_R : Resource.t :=
  Resource.mk None "Breathing" None "exercise" None None None (Some "stress") None
              true (Some 5) true 10 10.

Definition db_R : DB := mkDB ∅ ∅ ∅ {[ id_R := resource_R ]} ∅.

(** [{ deviceId, changes: {} }] *)
Definition bootstrap : SyncRequest.t :=
  SyncRequest.mk device None (SyncRequest.mkc None None None).

(** A check-in scheduled for alice, not reviewed. *)
Definition checkin_C : Row.t CheckIn.attrs :=
  Row.mk tenant_1 alice_id 100 110 500 (Some 500) false
         (CheckIn.mk 2000 None None None false None None None).

Definition db_C : DB := mkDB ∅ ∅ {[ id_C := checkin_C ]} ∅ ∅.

(** alice sets a mood on the check-in and fills in the review columns
    herself.  The change brings no time but its [updatedAt]. *)
Definition review_change : Change.t CheckIn.patch :=
  Change.mk id_C Absent Absent Absent Absent (Val 900) Absent Absent
            (CheckIn.mkp Absent Absent (Val "okay") Absent (Val true)
                         (Val alice_id) Absent (Val "nothing to see")).

Definition push_checkIns (logs : list (Change.t CheckIn.patch)) : SyncRequest.t :=
  SyncRequest.mk device None (SyncRequest.mkc None None (Some logs)).

(** Changes to the mood log [id_M]: dated after the server clock, between
    its last update and the server clock, and before its last update; one
    with a mood outside the five known; and one that also carries another
    owner and other creation dates. *)
Definition far_future : Change.t MoodLog.patch :=
  mood_change id_M "terrible" Absent (Val 99999).
Definition edited : Change.t MoodLog.patch :=
  mood_change id_M "bad" Absent (Val 900).
Definition stale : Change.t MoodLog.patch :=
  mood_change id_M "bad" Absent (Val 400).
Definition furious : Change.t MoodLog.patch :=
  mood_change id_M "furious" Absent (Val 900).
Definition redated : Change.t MoodLog.patch :=
  Change.mk id_M (Val tenant_2) (Val bob_id) (Val 777) (Val 778) (Val 900)
            Absent Absent (MoodLog.mkp Absent Absent Absent).

(** Mood logs the server does not hold: one as the client sends it, with
    its [clientCreatedAt], and one without. *)
Definition new_A : Change.t MoodLog.patch := mood_change id_A "good" (Val 900) Absent.
Definition new_B : Change.t MoodLog.patch := mood_change id_B "bad" Absent Absent.
End Sample.

(** ** The phases of [POST /api/sync]

    Names for the parts of [sync_post] behind its three push loops. *)

(** [lastSyncAt ? new Date(lastSyncAt) : new Date(0)] *)
Definition syncCutoffDate (body : SyncRequest.t) : timestamp :=
  match SyncRequest.lastSyncAt body with
  | Some t => t
  | None => 0
  end.

(** The [where] of the lookup of one cursor row. *)
Definition cursor_where (tenantId userId : uuid) (deviceId tableName : string)
  : uuid → SyncMetadata.t → Sql.cond :=
  λ _ r, Sql.and [ Sql.eq (Some (SyncMetadata.tenantId r)) (Some tenantId);
                   Sql.eq (Some (SyncMetadata.userId r)) (Some userId);
                   Sql.eq (Some (SyncMetadata.deviceId r)) (Some deviceId);
                   Sql.eq (Some (SyncMetadata.tableName r)) (Some tableName) ].

(** The body of the loop over [tables]. *)
Definition cursor_step (tenantId userId : uuid) (deviceId : string) (t : timestamp)
    (tableName : string) : M unit :=
  existing ← findFirst_syncMetadata (cursor_where tenantId userId deviceId tableName);
  match existing with
  | Some (id, _) => update_syncMetadata t t id
  | None => insert_syncMetadata tenantId userId deviceId tableName t
  end.

(** What the four pulls select in a database. *)
Definition pulled (tenantId userId : uuid) (cutoff : timestamp) (d : DB)
  : SyncResponse.serverChanges_t :=
  SyncResponse.mkc (Sql.select (pull_where tenantId userId cutoff) (moodLogs d))
                   (Sql.select (pull_where tenantId userId cutoff) (journalEntries d))
                   (Sql.select (pull_where tenantId userId cutoff) (checkIns d))
                   (Sql.select (resources_where tenantId cutoff) (resources d)).

(** Steps 2 to 4 of the handler. *)
Definition sync_tail (tenantId userId : uuid) (deviceId : string) (cutoff : timestamp)
  : M SyncResponse.t :=
  moodLogs ← findMany (pull_where tenantId userId cutoff);
  journalEntries ← findMany (pull_where tenantId userId cutoff);
  checkIns ← findMany (pull_where tenantId userId cutoff);
  resources ← findMany_resources (resources_where tenantId cutoff);
  t ← new_Date;
  for_of tables (cursor_step tenantId userId deviceId t) ;;
  mret (SyncResponse.mk true
          (SyncResponse.mkc moodLogs journalEntries checkIns resources) [] t).

(** A cursor row of the device for one table, synced at [t]. *)
Definition has_cursor (d : DB) (tenantId userId : uuid) (deviceId tableName : string)
    (t : timestamp) : Prop :=
  ∃ id r, syncMetadata d !! id = Some r
    ∧ SyncMetadata.tenantId r = tenantId
    ∧ SyncMetadata.userId r = userId
    ∧ SyncMetadata.deviceId r = deviceId
    ∧ SyncMetadata.tableName r = tableName
    ∧ SyncMetadata.lastSyncedAt r = t.

(** The three push loops of the handler. *)
Definition push_phase (req : AuthRequest.t) (body : SyncRequest.t) : M unit :=
  push_changes (AuthRequest.tenantId req) (AuthRequest.userId req)
    (SyncRequest.moodLogs (SyncRequest.changes body)) ;;
  push_changes (AuthRequest.tenantId req) (AuthRequest.userId req)
    (SyncRequest.journalEntries (SyncRequest.changes body)) ;;
  push_changes (AuthRequest.tenantId req) (AuthRequest.userId req)
    (SyncRequest.checkIns (SyncRequest.changes body)).

(** The identifiers named by the changes of one array of the request. *)
Definition pushed_ids {P} (logs : option (list (Change.t P))) : list uuid :=
  Change.id <$> default [] logs.

(** ** Relations between the database before and after a handler *)

(** Every run of [m] takes the database to one related to it by [R]. *)
Definition respects {A} (R : relation DB) (m : M A) : Prop :=
  ∀ w, R (w_db w) (w_db (m w).2).

(** [f] reads the same in both databases. *)
Definition same_on {X} (f : DB → X) : relation DB := λ d d', f d' = f d.

(** No row of the three synced tables is missing afterwards. *)
Definition no_row_removed : relation DB := λ d d',
  (∀ id, is_Some (moodLogs d !! id) → is_Some (moodLogs d' !! id))
  ∧ (∀ id, is_Some (journalEntries d !! id) → is_Some (journalEntries d' !! id))
  ∧ (∀ id, is_Some (checkIns d !! id) → is_Some (checkIns d' !! id)).

(** A row of the caller, updated after the cutoff. *)
Definition owned_since {A} (tenantId userId : uuid) (cutoff : timestamp) (r : Row.t A)
  : Prop :=
  Row.tenantId r = tenantId ∧ Row.userId r = userId ∧ cutoff < Row.updatedAt r.

(** ** The other routes on the synced tables

    [routes/mood.routes.ts], [routes/journal.routes.ts],
    [routes/checkin.routes.ts] and [routes/resources.routes.ts]: the routes
    that take a row by its [id].  The listing routes and the routes that
    create a row are not embedded. *)

(** An identifier in the form the store prints it, and
    [gen_random_uuid()] and the client's [generateId] write it: 8-4-4-4-12
    hexadecimal digits in lower case.  The [id] of a route, the identifiers
    of the caller and the [id] of a change are compared with [uuid] columns:
    the store refuses a text that is no uuid, and reads another spelling of
    a uuid (upper case, braces) as the uuid it denotes.  On identifiers in
    this form the comparison of the column is the comparison of the texts,
    which is the one embedded. *)
Definition is_hex (c : Ascii.ascii) : bool :=
  let n := Ascii.nat_of_ascii c in
  (Nat.leb 48 n && Nat.leb n 57) || (Nat.leb 97 n && Nat.leb n 102).

Fixpoint is_uuid_from (i : nat) (s : string) : bool :=
  match s with
  | EmptyString => Nat.eqb i 36
  | String c s =>
      (if Nat.eqb i 8 || Nat.eqb i 13 || Nat.eqb i 18 || Nat.eqb i 23
       then Nat.eqb (Ascii.nat_of_ascii c) 45 (* - *) else is_hex c)
      && is_uuid_from (S i) s
  end.

Definition is_uuid (s : string) : bool := is_uuid_from 0 s.

(** The caller's identifiers are in that form. *)
Definition uuid_caller (req : AuthRequest.t) : bool :=
  is_uuid (AuthRequest.tenantId req) && is_uuid (AuthRequest.userId req).

(** ** [utils/validation.ts]

    The body of a request behind [validate(schema)] is embedded with the
    keys the schema names.  A key holds a value of the type the schema names
    for it, or is missing; [Null] stands for [null] and for a value of
    another type, which the schema refuses alike. *)

(** [z.enum(['great', 'good', 'okay', 'bad', 'terrible'])] *)
Definition moods : list string := ["great"; "good"; "okay"; "bad"; "terrible"].

(** [.optional()] *)
Definition optional {A} (schema : A → bool) (v : field A) : bool :=
  match v with
  | Absent => true
  | Null => false
  | Val a => schema a
  end.

Module UpdateJournalEntry.
Record body := mk {
  title : field string;
  content : field string;
  mood : field string;
  isPrivate : field bool;
  clientCreatedAt : field timestamp;
}.
End UpdateJournalEntry.

(** [createJournalEntrySchema.partial()] *)
Definition updateJournalEntrySchema (b : UpdateJournalEntry.body) : bool :=
  optional (λ s, bool_decide (String.length s ≤ 500)%nat) (UpdateJournalEntry.title b)
  && optional (λ s, bool_decide (1 ≤ String.length s)%nat) (UpdateJournalEntry.content b)
  && optional (λ s, bool_decide (s ∈ moods)) (UpdateJournalEntry.mood b)
  && optional (λ _, true) (UpdateJournalEntry.isPrivate b)
  && optional (λ _, true) (UpdateJournalEntry.clientCreatedAt b).

Module UpdateCheckIn.
Record body := mk {
  completedAt : field timestamp;
  mood : field string;
  responses : field string;          (* a JSON object, kept as its text *)
  needsAttention : field bool;
}.
End UpdateCheckIn.

Definition updateCheckInSchema (b : UpdateCheckIn.body) : bool :=
  optional (λ _, true) (UpdateCheckIn.completedAt b)
  && optional (λ s, bool_decide (s ∈ moods)) (UpdateCheckIn.mood b)
  && optional (λ _, true) (UpdateCheckIn.responses b)
  && optional (λ _, true) (UpdateCheckIn.needsAttention b).

(** What a route behind [validate(schema)] answers: 400 with
    [{ success: false, error: 'Validation failed', details: error.errors }]
    from the middleware, or what the route behind it answers. *)
Inductive validated (T : Type) : Type :=
| Rejected
| Passed (reply : T).
Arguments Rejected {T}.
Arguments Passed {T} reply.

(** [validate(schema)] in front of [next]. *)
Definition validate {B T} (schema : B → bool) (body : B) (next : World → T * World)
  : World → validated T * World :=
  λ w, if schema body then (Passed (next w).1, (next w).2) else (Rejected, w).

(** [ApiResponse<T>] of [types/index.ts]. *)
Module ApiResponse.
Record t (T : Type) : Type := mk {
  success : bool;
  data : option T;
  error : option error_text;
  message : option string;
}.
Arguments mk {T}.
Arguments success {T}.
Arguments data {T}.
Arguments error {T}.
Arguments message {T}.
End ApiResponse.

(** [res.status(code).json(body)] *)
Record Reply (T : Type) : Type := mkReply {
  code : nat;
  sent_body : ApiResponse.t T;
}.
Arguments mkReply {T}.
Arguments code {T}.
Arguments sent_body {T}.

(** [class AppError] of [middleware/error.ts]. *)
Inductive AppError := mkAppError (statusCode : nat) (message : string).

#[export] Instance role_eq_dec : EqDecision role.
Proof. solve_decision. Defined.

(** [requireRole(...roles)]: the error it throws, if any. *)
Definition requireRole (roles : list role) (req : AuthRequest.t) : option AppError :=
  if bool_decide (AuthRequest.userRole req ∈ roles) then None
  else Some (mkAppError 403 "Insufficient permissions").

(** [errorHandler], on an [AppError] and on any other error. *)
Definition errorHandler_api {T} (production : bool) (err : AppError + db_error) : Reply T :=
  match err with
  | inl (mkAppError statusCode message) =>
      mkReply statusCode (ApiResponse.mk false None (Some (Literal message)) None)
  | inr e =>
      mkReply 500
        (ApiResponse.mk false None
           (Some (if production then Literal "Internal server error" else MessageOf e))
           None)
  end.

(** [asyncHandler(fn)] for the routes that answer an [ApiResponse]. *)
Definition asyncHandler_api {T} (production : bool) (fn : M (Reply T))
  : World → Reply T * World :=
  λ w, match fn w with
       | (Ok res, w') => (res, w')
       | (Throw err, w') => (errorHandler_api production (inr err), w')
       end.

(** A route behind [requireRole(...roles)]: the middleware throws before the
    handler runs, and express hands the error to [errorHandler]. *)
Definition behind_requireRole {T} (production : bool) (roles : list role)
    (req : AuthRequest.t) (route : World → Reply T * World) : World → Reply T * World :=
  match requireRole roles req with
  | Some err => λ w, (errorHandler_api production (inl err), w)
  | None => route
  end.

(** [{ success: false, error }] with status 404. *)
Definition not_found {T} (error : string) : Reply T :=
  mkReply 404 (ApiResponse.mk false None (Some (Literal error)) None).

Section Routes.
Context {A P : Type} `{Entity A P}.

(** [db.update(<table>).set(...).where(where_).returning()]: every selected
    row is rewritten by [set], or none if the store rejects one. *)
Definition db_update_where (where_ : uuid → Row.t A → Sql.cond)
    (set : Row.t A → result (Row.t A)) : M (list (uuid * Row.t A)) := λ w,
  let m := ent_get (w_db w) in
  match mapM (λ kr, r' ← set kr.2; mret (kr.1, r')) (Sql.select where_ m) with
  | Throw e => (Throw e, sent (Update ent_table) (w_db w) w)
  | Ok updated =>
      (Ok updated, sent (Update ent_table) (ent_set (list_to_map updated ∪ m) (w_db w)) w)
  end.

(** [and(eq(<table>.id, id), eq(<table>.tenantId, tenantId), eq(<table>.userId, userId))] *)
Definition owner_where (id tenantId userId : uuid) : uuid → Row.t A → Sql.cond :=
  λ k r, Sql.and [ Sql.eq (Some k) (Some id);
                   Sql.eq (Some (Row.tenantId r)) (Some tenantId);
                   Sql.eq (Some (Row.userId r)) (Some userId) ].

(** [and(eq(<table>.id, id), eq(<table>.tenantId, tenantId))] *)
Definition tenant_where (id tenantId : uuid) : uuid → Row.t A → Sql.cond :=
  λ k r, Sql.and [ Sql.eq (Some k) (Some id);
                   Sql.eq (Some (Row.tenantId r)) (Some tenantId) ].

(** The handler of [GET /:id] of the mood and journal routers. *)
Definition get_by_id (error : string) (req : AuthRequest.t) (id : uuid)
  : M (Reply (uuid * Row.t A)) :=
  log ← findFirst (owner_where id (AuthRequest.tenantId req) (AuthRequest.userId req));
  match log with
  | None => mret (not_found error)
  | Some log => mret (mkReply 200 (ApiResponse.mk true (Some log) None None))
  end.

(** [{ isDeleted: true, updatedAt: new Date() }] *)
Definition soft_delete_set (t : timestamp) (r : Row.t A) : result (Row.t A) :=
  Ok (Row.mk (Row.tenantId r) (Row.userId r) (Row.clientCreatedAt r) (Row.createdAt r)
             t (Row.syncedAt r) true (Row.attrs r)).

(** The handler of [DELETE /:id] of the mood and journal routers. *)
Definition soft_delete (message : string) (req : AuthRequest.t) (id : uuid)
  : M (Reply (uuid * Row.t A)) :=
  t ← new_Date;
  db_update_where (owner_where id (AuthRequest.tenantId req) (AuthRequest.userId req))
                  (soft_delete_set t) ;;
  mret (mkReply 200 (ApiResponse.mk true None None (Some message))).
End Routes.

(** [router.get('/:id', ...)] and [router.delete('/:id', ...)] of
    [mood.routes.ts] and [journal.routes.ts]. *)
Definition get_mood (production : bool) (req : AuthRequest.t) (id : uuid)
  : World → Reply (uuid * Row.t MoodLog.attrs) * World :=
  asyncHandler_api production (get_by_id "Mood log not found" req id).

Definition delete_mood (production : bool) (req : AuthRequest.t) (id : uuid)
  : World → Reply (uuid * Row.t MoodLog.attrs) * World :=
  asyncHandler_api production (soft_delete "Mood log deleted successfully" req id).

Definition get_journal (production : bool) (req : AuthRequest.t) (id : uuid)
  : World → Reply (uuid * Row.t JournalEntry.attrs) * World :=
  asyncHandler_api production (get_by_id "Journal entry not found" req id).

Definition delete_journal (production : bool) (req : AuthRequest.t) (id : uuid)
  : World → Reply (uuid * Row.t JournalEntry.attrs) * World :=
  asyncHandler_api production (soft_delete "Journal entry deleted successfully" req id).

(** [SET] of a nullable [varchar(n)] column holding [old]: the length is
    checked when the statement carries a text. *)
Definition set_varchar (t : table) (c : string) (n : nat) (old : option string)
    (v : field string) : result (option string) :=
  match v with
  | Val s => s' ← Col.varchar t c n s; Ok (Some s')
  | Null => Ok None
  | Absent => Ok old
  end.

(** [{ title, content, mood, updatedAt: new Date() }] *)
Definition journal_set (t : timestamp) (title content mood : field string)
    (r : Row.t JournalEntry.attrs) : result (Row.t JournalEntry.attrs) :=
  let old := Row.attrs r in
  ti ← set_varchar journal_entries "title" 500 (JournalEntry.title old) title;
  c ← Col.set_required journal_entries "content" (JournalEntry.content old) content;
  m ← set_varchar journal_entries "mood" 50 (JournalEntry.mood old) mood;
  Ok (Row.mk (Row.tenantId r) (Row.userId r) (Row.clientCreatedAt r) (Row.createdAt r)
             t (Row.syncedAt r) (Row.isDeleted r)
             (JournalEntry.mk ti c m (JournalEntry.isPrivate old))).

(** The handler of [PATCH /api/journal/:id]:
    [const { title, content, mood } = req.body]. *)
Definition journal_update (req : AuthRequest.t) (id : uuid) (title content mood : field string)
  : M (Reply (uuid * Row.t JournalEntry.attrs)) :=
  t ← new_Date;
  updated ← db_update_where
    (owner_where id (AuthRequest.tenantId req) (AuthRequest.userId req))
    (journal_set t title content mood);
  match head updated with
  | None => mret (not_found "Journal entry not found")
  | Some updated =>
      mret (mkReply 200 (ApiResponse.mk true (Some updated) None
                           (Some "Journal entry updated successfully")))
  end.

(** [router.patch('/:id', validate(updateJournalEntrySchema), asyncHandler(...))] *)
Definition patch_journal (production : bool) (req : AuthRequest.t) (id : uuid)
    (body : UpdateJournalEntry.body)
  : World → validated (Reply (uuid * Row.t JournalEntry.attrs)) * World :=
  validate updateJournalEntrySchema body
    (asyncHandler_api production
       (journal_update req id (UpdateJournalEntry.title body)
          (UpdateJournalEntry.content body) (UpdateJournalEntry.mood body))).

(** The columns of a check-in row other than those of [CheckIn.attrs]
    stay, [updatedAt] apart. *)
Definition with_attrs (r : Row.t CheckIn.attrs) (updatedAt : timestamp)
    (attrs : CheckIn.attrs) : Row.t CheckIn.attrs :=
  Row.mk (Row.tenantId r) (Row.userId r) (Row.clientCreatedAt r) (Row.createdAt r)
         updatedAt (Row.syncedAt r) (Row.isDeleted r) attrs.

(** [{ completedAt: new Date(), mood, responses, updatedAt: new Date() }] *)
Definition complete_set (t : timestamp) (mood responses : field string)
    (r : Row.t CheckIn.attrs) : result (Row.t CheckIn.attrs) :=
  let old := Row.attrs r in
  m ← match mood with
      | Val s => s' ← Col.varchar check_ins "mood" 50 s; Ok (Some s')
      | Null => Ok None
      | Absent => Ok (CheckIn.mood old)
      end;
  Ok (with_attrs r t
        (CheckIn.mk (CheckIn.scheduledFor old) (Some t) m
           (Col.set_nullable (CheckIn.responses old) responses)
           (CheckIn.needsAttention old) (CheckIn.reviewedBy old) (CheckIn.reviewedAt old)
           (CheckIn.reviewNotes old))).

(** The handler of [PATCH /api/checkins/:id/complete]:
    [const { mood, responses } = req.body]. *)
Definition checkin_complete (req : AuthRequest.t) (id : uuid) (mood responses : field string)
  : M (Reply (uuid * Row.t CheckIn.attrs)) :=
  t ← new_Date;
  updated ← db_update_where
    (owner_where id (AuthRequest.tenantId req) (AuthRequest.userId req))
    (complete_set t mood responses);
  match head updated with
  | None => mret (not_found "Check-in not found")
  | Some updated =>
      mret (mkReply 200 (ApiResponse.mk true (Some updated) None
                           (Some "Check-in completed successfully")))
  end.

(** [router.patch('/:id/complete', validate(updateCheckInSchema), asyncHandler(...))] *)
Definition patch_checkin_complete (production : bool) (req : AuthRequest.t) (id : uuid)
    (body : UpdateCheckIn.body)
  : World → validated (Reply (uuid * Row.t CheckIn.attrs)) * World :=
  validate updateCheckInSchema body
    (asyncHandler_api production
       (checkin_complete req id (UpdateCheckIn.mood body) (UpdateCheckIn.responses body))).

(** [{ needsAttention, reviewNotes, reviewedBy: req.userId,
       reviewedAt: new Date(), updatedAt: new Date() }] *)
Definition review_set (t : timestamp) (userId : uuid) (needsAttention : field bool)
    (reviewNotes : field string) (r : Row.t CheckIn.attrs) : result (Row.t CheckIn.attrs) :=
  let old := Row.attrs r in
  n ← Col.set_required check_ins "needs_attention" (CheckIn.needsAttention old)
         needsAttention;
  Ok (with_attrs r t
        (CheckIn.mk (CheckIn.scheduledFor old) (CheckIn.completedAt old) (CheckIn.mood old)
           (CheckIn.responses old) n (Some userId) (Some t)
           (Col.set_nullable (CheckIn.reviewNotes old) reviewNotes))).

(** The handler of [PATCH /api/checkins/:id/review]. *)
Definition checkin_review (req : AuthRequest.t) (id : uuid) (needsAttention : field bool)
    (reviewNotes : field string) : M (Reply (uuid * Row.t CheckIn.attrs)) :=
  t ← new_Date;
  updated ← db_update_where (tenant_where id (AuthRequest.tenantId req))
    (review_set t (AuthRequest.userId req) needsAttention reviewNotes);
  match head updated with
  | None => mret (not_found "Check-in not found")
  | Some updated =>
      mret (mkReply 200 (ApiResponse.mk true (Some updated) None
                           (Some "Check-in reviewed successfully")))
  end.

(** [router.patch('/:id/review', requireRole('psychologist'), asyncHandler(...))] *)
Definition patch_checkin_review (production : bool) (req : AuthRequest.t) (id : uuid)
    (needsAttention : field bool) (reviewNotes : field string)
  : World → Reply (uuid * Row.t CheckIn.attrs) * World :=
  behind_requireRole production [psychologist] req
    (asyncHandler_api production (checkin_review req id needsAttention reviewNotes)).

(** [GET /api/resources/:id]:
    [and(eq(resources.id, id), eq(resources.isPublished, true),
         or(eq(resources.tenantId, tenantId), isNull(resources.tenantId)))] *)
Definition resource_where (id tenantId : uuid) : uuid → Resource.t → Sql.cond :=
  λ k r, Sql.and [ Sql.eq (Some k) (Some id);
                   Sql.eq (Some (Resource.isPublished r)) (Some true);
                   Sql.or [ Sql.eq (Resource.tenantId r) (Some tenantId);
                            Sql.isNull (Resource.tenantId r) ] ].

Definition findFirst_resources (where_ : uuid → Resource.t → Sql.cond)
  : M (option (uuid * Resource.t)) :=
  λ w, (Ok (head (Sql.select where_ (resources (w_db w)))),
        sent (FindFirst resources_table) (w_db w) w).

(** The handler of [GET /api/resources/:id]. *)
Definition resource_by_id (req : AuthRequest.t) (id : uuid) : M (Reply (uuid * Resource.t)) :=
  resource ← findFirst_resources (resource_where id (AuthRequest.tenantId req));
  match resource with
  | None => mret (not_found "Resource not found")
  | Some resource => mret (mkReply 200 (ApiResponse.mk true (Some resource) None None))
  end.

Definition get_resource (production : bool) (req : AuthRequest.t) (id : uuid)
  : World → Reply (uuid * Resource.t) * World :=
  asyncHandler_api production (resource_by_id req id).

(** The row [DELETE /:id] leaves: a tombstone stamped [t]. *)
Definition tombstone {A} (t : timestamp) (r : Row.t A) : Row.t A :=
  Row.mk (Row.tenantId r) (Row.userId r) (Row.clientCreatedAt r) (Row.createdAt r)
         t (Row.syncedAt r) true (Row.attrs r).

(** The row of the caller: same tenant, same user. *)
Definition owned_by {A} (req : AuthRequest.t) (r : Row.t A) : Prop :=
  Row.tenantId r = AuthRequest.tenantId req ∧ Row.userId r = AuthRequest.userId req.

(** ** The client's side of a push: [seabuddy-frontend/lib/sync/service.ts]

    [mapToServerFormat] builds every pushed change, whatever the local table
    the record comes from.  A record is the row [SELECT *] returned: the
    keys the function reads are fields, absent where the local table has no
    such column and [null] where the column is [NULL]. *)
Module LocalRecord.
Record t := mk {
  localId : string;
  serverId : field string;
  mood : field string;
  intensity : field Z;
  notes : field string;
  title : field string;
  content : field string;
  isPrivate : field Z;
  createdAt : field timestamp;
  updatedAt : field timestamp;
}.
End LocalRecord.

(** The object of one change on the wire. *)
Module WireChange.
Record t := mk {
  id : string;
  mood : field string;
  intensity : field Z;
  notes : field string;
  title : field string;
  content : field string;
  isPrivate : bool;
  clientCreatedAt : field timestamp;
  updatedAt : field timestamp;
}.
End WireChange.

Definition mapToServerFormat (record : LocalRecord.t) : WireChange.t :=
  WireChange.mk
    (* record.serverId || record.localId *)
    match LocalRecord.serverId record with
    | Val s => if bool_decide (s = "") then LocalRecord.localId record else s
    | _ => LocalRecord.localId record
    end
    (LocalRecord.mood record)
    (LocalRecord.intensity record)
    (LocalRecord.notes record)
    (LocalRecord.title record)
    (LocalRecord.content record)
    (* record.isPrivate === 1 *)
    match LocalRecord.isPrivate record with
    | Val n => bool_decide (n = 1)
    | _ => false
    end
    (LocalRecord.createdAt record)
    (LocalRecord.updatedAt record).

(** What each push loop of the server spreads into its statement: of the
    keys of the object, those that are columns of the table. *)
Definition as_moodLog (c : WireChange.t) : Change.t MoodLog.patch :=
  Change.mk (WireChange.id c) Absent Absent (WireChange.clientCreatedAt c) Absent
            (WireChange.updatedAt c) Absent Absent
            (MoodLog.mkp (WireChange.mood c) (WireChange.intensity c) (WireChange.notes c)).

Definition as_journalEntry (c : WireChange.t) : Change.t JournalEntry.patch :=
  Change.mk (WireChange.id c) Absent Absent (WireChange.clientCreatedAt c) Absent
            (WireChange.updatedAt c) Absent Absent
            (JournalEntry.mkp (WireChange.title c) (WireChange.content c) (WireChange.mood c)
                              (Val (WireChange.isPrivate c))).

Definition as_checkIn (c : WireChange.t) : Change.t CheckIn.patch :=
  Change.mk (WireChange.id c) Absent Absent (WireChange.clientCreatedAt c) Absent
            (WireChange.updatedAt c) Absent Absent
            (CheckIn.mkp Absent Absent (WireChange.mood c) Absent Absent Absent Absent Absent).

(** The request [performSync] sends: the pending records of the three
    local tables, each through [mapToServerFormat]. *)
Definition syncRequest (deviceId : string) (lastSync : option timestamp)
    (pendingMoodLogs pendingJournals pendingCheckIns : list LocalRecord.t)
  : SyncRequest.t :=
  SyncRequest.mk deviceId lastSync
    (SyncRequest.mkc
       (Some ((λ r, as_moodLog (mapToServerFormat r)) <$> pendingMoodLogs))
       (Some ((λ r, as_journalEntry (mapToServerFormat r)) <$> pendingJournals))
       (Some ((λ r, as_checkIn (mapToServerFormat r)) <$> pendingCheckIns))).

(** The local tables declare [createdAt TEXT NOT NULL]: every record has
    one. *)
Definition has_createdAt (record : LocalRecord.t) : bool :=
  match LocalRecord.createdAt record with
  | Val _ => true
  | _ => false
  end.

(** How the push of a change ends when it writes nothing: the statement
    is refused by the encoder, or the change is not newer than the stored
    row and is dropped. *)
Definition refused_or_dropped {A P} `{Entity A P} (tenantId userId : uuid)
    (log : Change.t P) (w : World) : Prop :=
  let res := push_change tenantId userId log w in
  w_db res.2 = w_db w
  ∧ (res.1 = Throw TypeError
     ∨ res.1 = Ok tt
       ∧ ∃ existing, ent_get (w_db w) !! Change.id log = Some existing
                     ∧ date_gt (clientDate log) (Row.updatedAt existing) = false).

(** ** More sample data *)
Module Fixture.
Import Sample.

(** A psychologist of tenant 1. *)
Definition carol_id : uuid := "ca701ca7-01ca-4701-8a70-1ca701ca701c".
Definition carol : AuthRequest.t := AuthRequest.mk tenant_1 carol_id psychologist.

(** A published resource of tenant 1. *)
Definition id_T : uuid := "33333333-3333-4333-8333-333333333333".
Definition resource_T : Resource.t :=
  Resource.mk (Some tenant_1) "Watch routine" None "article" None None None (Some "sleep")
              None true (Some 3) true 20 20.

(** A second mood log of alice. *)
Definition id_K : uuid := "55555555-5555-4555-8555-555555555555".
Definition mood_K : Row.t MoodLog.attrs :=
  Row.mk tenant_1 alice_id 200 210 600 (Some 600) false
         (MoodLog.mk "okay" None (Some "calm sea")).

Definition db_all : DB :=
  mkDB {[ id_M := mood_M; id_K := mood_K ]} ∅ {[ id_C := checkin_C ]}
       {[ id_R := resource_R; id_T := resource_T ]} ∅.

(** A journal entry of alice, last updated at 500. *)
Definition id_J : uuid := "44444444-4444-4444-8444-444444444444".
Definition journal_J : Row.t JournalEntry.attrs :=
  Row.mk tenant_1 alice_id 100 110 500 (Some 500) false
         (JournalEntry.mk (Some "Night watch") "Long swell, no sleep." None true).
Definition db_J : DB := mkDB ∅ {[ id_J := journal_J ]} ∅ ∅ ∅.

(** The body of a sync response. *)
Definition synced (res : Response) : SyncResponse.t :=
  match body res with
  | SyncJson r => r
  | _ => SyncResponse.mk false (SyncResponse.mkc [] [] [] []) [] 0
  end.

(** alice pushes an edit of her mood log [id_M] from a device that never
    synced. *)
Definition resp_A : SyncResponse.t :=
  Eval vm_compute in
    synced (post_sync true alice (push_moods [edited]) (world db_all)).1.

(** alice deletes her mood log [id_M], then syncs without changes. *)
Definition resp_M : SyncResponse.t :=
  Eval vm_compute in
    synced (post_sync true alice bootstrap
              (delete_mood true alice id_M (world db_M)).2).1.

(** Bodies of the two validated routes. *)
Definition retitle : UpdateJournalEntry.body :=
  UpdateJournalEntry.mk (Val "Dog watch") Absent Absent Absent Absent.
Definition feeling_good : UpdateCheckIn.body :=
  UpdateCheckIn.mk Absent (Val "good") Absent Absent.

(** Rows of the device: the check-in [id_C] completed on the device at 900,
    a check-in the server never saw, and the mood log [id_M] edited at 900. *)
Definition local_C : LocalRecord.t :=
  LocalRecord.mk "0c0c0c0c-0c0c-40c0-80c0-0c0c0c0c0c0c" (Val id_C) (Val "good")
                 Absent Absent Absent Absent Absent (Val 100) (Val 900).
Definition local_new : LocalRecord.t :=
  LocalRecord.mk "0d0d0d0d-0d0d-40d0-80d0-0d0d0d0d0d0d" Null Null
                 Absent Absent Absent Absent Absent (Val 800) (Val 800).
Definition local_M : LocalRecord.t :=
  LocalRecord.mk "0e0e0e0e-0e0e-40e0-80e0-0e0e0e0e0e0e" (Val id_M) (Val "bad")
                 (Val 3) Null Absent Absent Absent (Val 100) (Val 900).
End Fixture.

(** * Properties *)

(** ** The lookup by [id] *)

Lemma select_by_id {R} (id : uuid) (m : gmap uuid R) :
  head (Sql.select (λ k _, Sql.eq (Some k) (Some id)) m) = (λ r, (id, r)) <$> m !! id.
Proof.
  unfold Sql.select.
  rewrite <- (list_to_map_to_list m) at 2.
  induction (map_to_list m) as [|[k r] l IH]; [done|].
  cbn [List.filter fst snd Sql.eq Sql.holds list_to_map foldr uncurry].
  case_bool_decide as Hk.
  - subst k. by rewrite lookup_insert_eq.
  - by rewrite lookup_insert_ne.
Qed.

Section Push.
Context {A P : Type} `{Entity A P}.
Implicit Types (w : World) (log : Change.t P) (tenantId userId : uuid).

(** [push_change] read off its lookup. *)
Lemma push_change_unfold tenantId userId log w :
  push_change tenantId userId log w =
    let w1 := sent (FindFirst ent_table) (w_db w) w in
    match ent_get (w_db w) !! Change.id log with
    | Some existing =>
        if date_gt (clientDate log) (Row.updatedAt existing)
        then db_update (update_set log tenantId userId (now w1)) (Change.id log) w1
        else (Ok tt, w1)
    | None => db_insert (insert_values log tenantId userId (now w1)) w1
    end.
Proof.
  unfold push_change, mbind, M_bind, findFirst.
  rewrite select_by_id.
  destruct (ent_get (w_db w) !! Change.id log) as [existing|]; cbn; [|done].
  by destruct (date_gt _ _).
Qed.

Lemma now_sent op d w : now (sent op d w) = w_clock w (S (length (w_trace w))).
Proof. reflexivity. Qed.

(** Case analysis on what a statement does with the keys of a change. *)
Ltac columns :=
  unfold updated_row, inserted_row, encode, insert_row, update_row, insert_values,
    update_set, spread, carried_or;
  cbn [Columns.id Columns.tenantId Columns.userId Columns.clientCreatedAt
       Columns.createdAt Columns.updatedAt Columns.syncedAt Columns.isDeleted
       Columns.attrs];
  intros;
  repeat (first
    [ done
    | by eauto
    | progress simplify_eq
    | progress unfold mbind, result_bind in *
    | progress cbn [Col.time Col.required Col.defaulted Col.set_required
                    Col.set_nullable Col.nullable
                    Params.id Params.tenantId Params.userId Params.clientCreatedAt
                    Params.createdAt Params.updatedAt Params.syncedAt Params.isDeleted
                    Params.attrs Row.tenantId Row.userId Row.clientCreatedAt
                    Row.createdAt Row.updatedAt Row.syncedAt Row.isDeleted Row.attrs]
        in *
    | case_match ]).

Lemma encode_id (values : Columns.t P) params :
  encode values = Ok params → Params.id params = Columns.id values.
Proof. columns. Qed.

(** The statement the handler's [INSERT] would be is never run to its end:
    the encoder refuses a [clientCreatedAt] the change brings, and the store
    refuses a row without one. *)
Lemma inserted_row_throws tenantId userId log t :
  ∃ e, inserted_row log tenantId userId t = Throw e.
Proof. columns. Qed.

(** What the handler's [UPDATE] leaves in the row. *)
Lemma updated_row_writes tenantId userId log t old row :
  updated_row log tenantId userId t old = Ok row →
  Row.tenantId row = tenantId ∧ Row.userId row = userId
  ∧ Row.clientCreatedAt row = Row.clientCreatedAt old
  ∧ Row.createdAt row = Row.createdAt old
  ∧ Row.updatedAt row = t
  ∧ Row.syncedAt row = Some t
  ∧ Row.isDeleted row = carried_or (Change.isDeleted log) (Row.isDeleted old)
  ∧ ent_update (Change.attrs log) (Row.attrs old) = Ok (Row.attrs row).
Proof. columns. Qed.

(** Whether the handler's [UPDATE] is refused does not depend on the
    instant it is built. *)
Lemma updated_row_rejected tenantId userId log t t' old e :
  updated_row log tenantId userId t old = Throw e →
  updated_row log tenantId userId t' old = Throw e.
Proof. columns. Qed.

(** The ways [push_change] ends: the row exists and the change is newer
    (applied, or refused), the row exists and the change is not newer, the
    row is new. *)
Lemma push_change_applied tenantId userId log w existing row :
  ent_get (w_db w) !! Change.id log = Some existing →
  date_gt (clientDate log) (Row.updatedAt existing) = true →
  updated_row log tenantId userId (write_time w) existing = Ok row →
  push_change tenantId userId log w =
    (Ok tt, sent (Update ent_table)
                 (ent_set (<[Change.id log := row]> (ent_get (w_db w))) (w_db w))
                 (sent (FindFirst ent_table) (w_db w) w)).
Proof.
  intros Hex Hgt. rewrite push_change_unfold, Hex; cbn zeta. rewrite Hgt.
  unfold db_update, updated_row, mbind, result_bind; cbn [w_db sent].
  rewrite now_sent. fold (write_time w).
  destruct (encode _) as [set|] eqn:Hset; [|done].
  assert (Params.id set = Change.id log) as Hid by (revert Hset; columns).
  rewrite Hex. intros ->. by rewrite Hid, decide_True.
Qed.

Lemma push_change_refused tenantId userId log w existing e :
  ent_get (w_db w) !! Change.id log = Some existing →
  date_gt (clientDate log) (Row.updatedAt existing) = true →
  updated_row log tenantId userId (write_time w) existing = Throw e →
  (push_change tenantId userId log w).1 = Throw e
  ∧ w_db (push_change tenantId userId log w).2 = w_db w.
Proof.
  intros Hex Hgt. rewrite push_change_unfold, Hex; cbn zeta. rewrite Hgt.
  unfold db_update, updated_row, mbind, result_bind; cbn [w_db sent].
  rewrite now_sent. fold (write_time w).
  destruct (encode _) as [set|]; [|by intros [= ->]].
  rewrite Hex. by intros ->.
Qed.

Lemma push_change_stale tenantId userId log w existing :
  ent_get (w_db w) !! Change.id log = Some existing →
  date_gt (clientDate log) (Row.updatedAt existing) = false →
  push_change tenantId userId log w = (Ok tt, sent (FindFirst ent_table) (w_db w) w).
Proof. intros Hex Hgt. by rewrite push_change_unfold, Hex; cbn zeta; rewrite Hgt. Qed.

Lemma push_change_new tenantId userId log w :
  ent_get (w_db w) !! Change.id log = None →
  (push_change tenantId userId log w).1
  = (inserted_row log tenantId userId (write_time w) ≫= λ _, Ok tt)
  ∧ w_db (push_change tenantId userId log w).2 = w_db w.
Proof.
  intros Hnew. rewrite push_change_unfold, Hnew; cbn zeta.
  destruct (inserted_row_throws tenantId userId log (write_time w)) as [e He].
  rewrite He. revert He.
  unfold db_insert, inserted_row, mbind, result_bind; cbn [w_db sent].
  rewrite now_sent. fold (write_time w).
  destruct (encode _) as [values|]; [|by intros [= ->]].
  by intros ->.
Qed.

(** A change that is refused, and a change that is dropped, write nothing. *)
Lemma push_change_not_applied tenantId userId log w :
  (∀ existing row,
     ent_get (w_db w) !! Change.id log = Some existing →
     date_gt (clientDate log) (Row.updatedAt existing) = true →
     updated_row log tenantId userId (write_time w) existing ≠ Ok row) →
  w_db (push_change tenantId userId log w).2 = w_db w.
Proof.
  intros Hno.
  destruct (ent_get (w_db w) !! Change.id log) as [existing|] eqn:Hex.
  - destruct (date_gt (clientDate log) (Row.updatedAt existing)) eqn:Hgt.
    + destruct (updated_row log tenantId userId (write_time w) existing)
        as [row|e] eqn:Hrow.
      * by destruct (Hno existing row).
      * by apply (push_change_refused _ _ _ _ existing e).
    + by rewrite (push_change_stale _ _ _ _ existing).
  - by apply push_change_new.
Qed.

Lemma push_change_throws tenantId userId log w e :
  (push_change tenantId userId log w).1 = Throw e →
  w_db (push_change tenantId userId log w).2 = w_db w.
Proof.
  intros Hthrow. apply push_change_not_applied.
  intros existing row Hex Hgt Hrow.
  by rewrite (push_change_applied _ _ _ _ existing row) in Hthrow.
Qed.

Lemma date_gt_false (d : option timestamp) (serverDate : timestamp) :
  (∀ t, d = Some t → (t ≤ serverDate)%Z) → date_gt d serverDate = false.
Proof.
  intros Hle. destruct d as [t|]; [|done]. cbn.
  apply bool_decide_eq_false. specialize (Hle t eq_refl). lia.
Qed.
End Push.


(** ** Pushing one change *)
Section Merge.
Context {A P : Type} `{Entity A P}.
Implicit Types (w : World) (log : Change.t P) (tenantId userId : uuid).

(** C3.  A pushed change whose [id] is that of a stored row and whose
    client date ([updatedAt] if the change carries one, else
    [clientCreatedAt]) is not strictly later than the row's [updatedAt]
    is dropped without an error: the handler goes on and the database,
    the row included, is what it was. *)
Theorem C3_stale_change_is_discarded tenantId userId log w existing :
  ent_get (w_db w) !! Change.id log = Some existing →
  (∀ t, clientDate log = Some t → (t ≤ Row.updatedAt existing)%Z) →
  (push_change tenantId userId log w).1 = Ok tt
  ∧ db_after (push_change tenantId userId log) w = w_db w
  ∧ ent_get (db_after (push_change tenantId userId log) w) !! Change.id log
    = Some existing.
Proof.
  intros Hex Hle. unfold db_after.
  rewrite (push_change_stale _ _ _ _ existing) by auto using date_gt_false.
  by cbn.
Qed.

(** C8, amended.  Pushing a change a second time leaves the database as
    the first push left it, provided the client date of the change is not
    later than the server clock at the first push's write. *)
Theorem C8_repush_is_idempotent tenantId userId log w :
  (∀ t, clientDate log = Some t → (t ≤ write_time w)%Z) →
  let w1 := (push_change tenantId userId log w).2 in
  db_after (push_change tenantId userId log) w1 = w_db w1.
Proof.
  intros Hle. cbn zeta. unfold db_after.
  destruct (ent_get (w_db w) !! Change.id log) as [existing|] eqn:Hex.
  - destruct (date_gt (clientDate log) (Row.updatedAt existing)) eqn:Hgt.
    + destruct (updated_row log tenantId userId (write_time w) existing)
        as [row|e] eqn:Hrow.
      * (* applied: the row now carries the server's instant *)
        rewrite (push_change_applied _ _ _ w existing row) by done. cbn [snd].
        rewrite (push_change_stale _ _ _ _ row); [done| |].
        -- cbn [w_db sent]. by rewrite ent_get_set, lookup_insert_eq.
        -- apply updated_row_writes in Hrow as (_ & _ & _ & _ & -> & _).
           by apply date_gt_false.
      * (* refused: it is refused again *)
        destruct (push_change_refused _ _ _ w existing e Hex Hgt Hrow) as [_ Hdb].
        apply push_change_not_applied. rewrite Hdb.
        intros existing' row Hex' _. simplify_eq.
        by rewrite (updated_row_rejected _ _ _ _ _ _ _ Hrow).
    + rewrite (push_change_stale _ _ _ w existing) by done. cbn [snd].
      by rewrite (push_change_stale _ _ _ _ existing).
  - (* new: never inserted, the first time or the second *)
    destruct (push_change_new tenantId userId log w Hex) as [_ Hdb].
    apply push_change_not_applied. rewrite Hdb. intros existing row Hex'. congruence.
Qed.

Lemma for_of_app {B} (l1 l2 : list B) (body : B → M unit) w :
  for_of (l1 ++ l2) body w =
    match for_of l1 body w with
    | (Ok _, w1) => for_of l2 body w1
    | (Throw e, w1) => (Throw e, w1)
    end.
Proof.
  revert w. induction l1 as [|x l1 IH]; intros w; [done|].
  cbn [for_of app]. unfold mbind, M_bind.
  destruct (body x w) as [[[]|e] w0]; [apply IH|done].
Qed.

End Merge.

(** ** The pull of resources *)

(** No global resource satisfies the condition of the sync pull, for any
    tenant and any cutoff. *)
Lemma resources_where_excludes_global tenantId syncCutoffDate id r :
  Resource.tenantId r = None →
  Sql.holds (resources_where tenantId syncCutoffDate id r) = false.
Proof.
  intros Hglobal. unfold resources_where. rewrite Hglobal. cbn.
  by repeat case_bool_decide.
Qed.

(** The listing route selects every published global resource. *)
Lemma resources_list_where_includes_global tenantId id r :
  Resource.tenantId r = None →
  Resource.isPublished r = true →
  Sql.holds (resources_list_where tenantId id r) = true.
Proof. intros Hglobal Hpub. unfold resources_list_where. by rewrite Hglobal, Hpub. Qed.

(** ** The status route *)

(** C10.  [GET /api/sync/status] without [deviceId] answers 400 with
    [{ success: false, error: 'deviceId is required' }]; the world it
    returns is the one it was given: no statement was sent, so no cursor
    row was read. *)
Theorem C10_status_without_deviceId production req w :
  let res := get_sync_status production req None w in
  res.1 = mkResponse 400 (ErrorJson (Literal "deviceId is required"))
  ∧ w_trace res.2 = w_trace w
  ∧ res.2 = w.
Proof.
  unfold get_sync_status, asyncHandler, status_get. cbn [is_falsy].
  unfold mret, M_ret. by split_and!.
Qed.

(** ** The calls on sample data *)
Section Runs.
Import Sample.

(** C1.  [id_M] is a mood log of alice in tenant 1.  bob, of tenant 2,
    pushes a change with that [id]: the lookup finds alice's row, and the
    update rewrites it and hands it to bob.  No second row appears. *)
Theorem C1_cross_tenant_push_takes_the_row :
  let res := post_sync true bob (push_moods [far_future]) (world db_M) in
  moodLogs db_M !! id_M = Some mood_M
  ∧ Row.tenantId mood_M = tenant_1
  ∧ AuthRequest.tenantId bob = tenant_2
  ∧ status res.1 = 200%nat
  ∧ moodLogs (w_db res.2) !! id_M
    = Some (Row.mk tenant_2 bob_id 100 110 1001 (Some 1001) false
                   (MoodLog.mk "terrible" (Some 7) None))
  ∧ size (moodLogs (w_db res.2)) = 1%nat.
Proof. vm_compute. by repeat split. Qed.

(** C2.  [id_R] is published, global and updated after the epoch.  alice's
    first sync, with no [lastSyncAt], pulls no resource: [eq] against
    [null] is never TRUE.  The listing route, which tests [isNull],
    returns the resource. *)
Theorem C2_global_resource_is_not_pulled :
  let res := post_sync true alice bootstrap (world db_R) in
  Resource.tenantId resource_R = None
  ∧ Resource.isPublished resource_R = true
  ∧ 0 < Resource.updatedAt resource_R
  ∧ res.1 = mkResponse 200 (SyncJson (SyncResponse.mk true
              (SyncResponse.mkc [] [] [] []) [] 1004))
  ∧ Sql.select (resources_list_where tenant_1) (resources db_R) = [(id_R, resource_R)].
Proof. vm_compute. by repeat split. Qed.

(** C3 at a sample: the stale change to [id_M] is dropped. *)
Lemma C3_witness :
  (push_change tenant_1 alice_id stale (world db_M)).1 = Ok tt
  ∧ db_after (push_change tenant_1 alice_id stale) (world db_M) = db_M
  ∧ moodLogs (db_after (push_change tenant_1 alice_id stale) (world db_M)) !! id_M
    = Some mood_M.
Proof.
  refine (C3_stale_change_is_discarded tenant_1 alice_id stale (world db_M) mood_M _ _).
  - reflexivity.
  - intros t Ht. vm_compute in Ht. injection Ht as <-. cbn. lia.
Defined.

(** C4.  alice pushes two changes: an edit of her mood log [id_M] and a
    mood log the server does not hold, without [clientCreatedAt].  The
    second is refused and the call answers 500; the edit made before it
    stays stored, and no cursor row is written. *)
Theorem C4_failed_call_keeps_partial_work :
  let res := post_sync true alice (push_moods [far_future; new_B]) (world db_M) in
  res.1 = mkResponse 500 (ErrorJson (Literal "Internal server error"))
  ∧ moodLogs db_M !! id_M = Some mood_M
  ∧ moodLogs (w_db res.2) !! id_M
    = Some (Row.mk tenant_1 alice_id 100 110 1001 (Some 1001) false
                   (MoodLog.mk "terrible" (Some 7) None))
  ∧ moodLogs (w_db res.2) !! id_B = None
  ∧ syncMetadata (w_db res.2) = ∅.
Proof. vm_compute. by repeat split. Qed.


(** C6.  alice is crew.  Her change to the check-in [id_C] carries
    [needsAttention], [reviewedBy] and [reviewNotes], and all three are
    stored. *)
Theorem C6_crew_push_stores_review_fields :
  let res := post_sync true alice (push_checkIns [review_change]) (world db_C) in
  AuthRequest.userRole alice = crew
  ∧ status res.1 = 200%nat
  ∧ Row.attrs <$> checkIns db_C !! id_C
    = Some (CheckIn.mk 2000 None None None false None None None)
  ∧ Row.attrs <$> checkIns (w_db res.2) !! id_C
    = Some (CheckIn.mk 2000 None (Some "okay") None true (Some alice_id)
                       None (Some "nothing to see")).
Proof. vm_compute. by repeat split. Qed.



(** C8 fails as stated: the change to [id_M] is dated 99999, after the
    server clock; the first push stamps the row 1001, the second 1003. *)
Lemma C8_counterexample :
  let push := push_change tenant_1 alice_id far_future in
  let w1 := (push (world db_M)).2 in
  Row.updatedAt <$> moodLogs (w_db w1) !! id_M = Some 1001
  ∧ Row.updatedAt <$> moodLogs (db_after push w1) !! id_M = Some 1003
  ∧ db_after push w1 ≠ w_db w1.
Proof.
  cbn zeta. split_and!; [by vm_compute..|].
  intros Heq. apply (f_equal (λ d, Row.updatedAt <$> moodLogs d !! id_M)) in Heq.
  by vm_compute in Heq.
Qed.

(** C8, amended, at a sample: [edited], dated 900, is applied at 1001 and
    dropped when it is pushed again. *)
Lemma C8_witness :
  let w1 := (push_change tenant_1 alice_id edited (world db_M)).2 in
  db_after (push_change tenant_1 alice_id edited) w1 = w_db w1.
Proof.
  refine (C8_repush_is_idempotent tenant_1 alice_id edited (world db_M) _).
  intros t Ht. vm_compute in Ht. injection Ht as <-. vm_compute. discriminate.
Defined.

(** C9.  [id_M] is alice's mood log.  dave, of the same tenant, pushes a
    change with that [id]: the row's [userId] becomes dave's.  And when
    alice herself pushes a change that brings [clientCreatedAt] and
    [createdAt], they are not ignored: the call answers 500 and the row is
    left as it was. *)
Theorem C9_another_user_takes_the_row :
  let res := post_sync true dave (push_moods [far_future]) (world db_M) in
  let res' := post_sync true alice (push_moods [redated]) (world db_M) in
  Row.userId <$> moodLogs db_M !! id_M = Some alice_id
  ∧ AuthRequest.userId dave = dave_id
  ∧ alice_id ≠ dave_id
  ∧ status res.1 = 200%nat
  ∧ Row.userId <$> moodLogs (w_db res.2) !! id_M = Some dave_id
  ∧ Change.clientCreatedAt redated = Val 777
  ∧ date_gt (clientDate redated) (Row.updatedAt mood_M) = true
  ∧ status res'.1 = 500%nat
  ∧ moodLogs (w_db res'.2) !! id_M = Some mood_M.
Proof. vm_compute. by repeat split. Qed.
End Runs.

(** * Further properties of the sync routes *)

#[local] Set Warnings "-clear-no-such-hyp".

(** ** Selections *)

Lemma elem_of_select {R} (c : uuid → R → Sql.cond) (m : gmap uuid R) id r :
  (id, r) ∈ Sql.select c m ↔ m !! id = Some r ∧ Sql.holds (c id r) = true.
Proof.
  unfold Sql.select. rewrite list_elem_of_In, filter_In, <- list_elem_of_In.
  by rewrite elem_of_map_to_list.
Qed.

Lemma holds_and_cons c cs :
  Sql.holds (Sql.and (c :: cs)) = Sql.holds c && Sql.holds (Sql.and cs).
Proof.
  unfold Sql.and. cbn [foldr].
  by destruct c as [[]|], (foldr Sql.and2 (Some true) cs) as [[]|].
Qed.

Lemma holds_eq_some {A} `{EqDecision A} (a b : A) :
  Sql.holds (Sql.eq (Some a) (Some b)) = true ↔ a = b.
Proof. cbn. case_bool_decide; naive_solver. Qed.

Lemma holds_gt_some (a b : Z) :
  Sql.holds (Sql.gt (Some a) (Some b)) = true ↔ b < a.
Proof. cbn. case_bool_decide; naive_solver. Qed.

Lemma pull_where_holds {A} tenantId userId cutoff id (r : Row.t A) :
  Sql.holds (pull_where tenantId userId cutoff id r) = true
  ↔ Row.tenantId r = tenantId ∧ Row.userId r = userId ∧ cutoff < Row.updatedAt r.
Proof.
  unfold pull_where. rewrite !holds_and_cons, !andb_true_iff.
  rewrite !holds_eq_some, holds_gt_some. cbn. naive_solver.
Qed.

Lemma resources_where_holds tenantId cutoff id r :
  Sql.holds (resources_where tenantId cutoff id r) = true
  ↔ Resource.tenantId r = Some tenantId ∧ Resource.isPublished r = true
    ∧ cutoff < Resource.updatedAt r.
Proof.
  unfold resources_where. rewrite !holds_and_cons, !andb_true_iff.
  rewrite holds_eq_some, holds_gt_some.
  destruct (Resource.tenantId r) as [t|]; cbn.
  - case_bool_decide; naive_solver.
  - naive_solver.
Qed.

Lemma cursor_where_holds tenantId userId deviceId tableName id r :
  Sql.holds (cursor_where tenantId userId deviceId tableName id r) = true
  ↔ SyncMetadata.tenantId r = tenantId ∧ SyncMetadata.userId r = userId
    ∧ SyncMetadata.deviceId r = deviceId ∧ SyncMetadata.tableName r = tableName.
Proof.
  unfold cursor_where. rewrite !holds_and_cons, !andb_true_iff.
  rewrite !holds_eq_some. cbn. naive_solver.
Qed.

(** ** What a handler does to the database, step by step *)

Section Respects.
Context (R : relation DB) `{!PreOrder R}.

Lemma respects_ret {A} (a : A) : respects R (mret a).
Proof. intros w. reflexivity. Qed.

Lemma respects_bind {A B} (m : M A) (k : A → M B) :
  respects R m → (∀ a, respects R (k a)) → respects R (m ≫= k).
Proof.
  intros Hm Hk w. unfold mbind, M_bind. specialize (Hm w).
  destruct (m w) as [[a|e] w1]; cbn in *; [|done].
  etrans; [done|apply Hk].
Qed.

Lemma respects_for_of {A} (l : list A) (body : A → M unit) :
  (∀ x, respects R (body x)) → respects R (for_of l body).
Proof.
  intros Hbody. induction l as [|x l IH]; cbn [for_of].
  - apply respects_ret.
  - apply respects_bind; auto.
Qed.

Lemma respects_new_Date : respects R new_Date.
Proof. intros w. reflexivity. Qed.

Lemma respects_findFirst `{Entity A P} c : respects R (findFirst c).
Proof. intros w. reflexivity. Qed.

Lemma respects_findMany `{Entity A P} c : respects R (findMany c).
Proof. intros w. reflexivity. Qed.

Lemma respects_findMany_resources c : respects R (findMany_resources c).
Proof. intros w. reflexivity. Qed.

Lemma respects_findFirst_syncMetadata c : respects R (findFirst_syncMetadata c).
Proof. intros w. reflexivity. Qed.

Lemma respects_findMany_syncMetadata c : respects R (findMany_syncMetadata c).
Proof. intros w. reflexivity. Qed.

(** A write to a synced table: the database stays, or the table is replaced. *)
Lemma respects_db_insert `{Entity A P} (values : Columns.t P) :
  (∀ d row, R d (ent_set (<[Columns.id values := row]> (ent_get d)) d)) →
  respects R (db_insert values).
Proof.
  intros HR w. unfold db_insert.
  destruct (encode values) as [params|] eqn:Hparams; cbn; [|reflexivity].
  apply encode_id in Hparams as ->.
  destruct (insert_row _ _); cbn; [|reflexivity].
  destruct (ent_get (w_db w) !! Columns.id values); cbn; [reflexivity|].
  by apply HR.
Qed.

Lemma respects_db_update_same `{Entity A P} (set : Columns.t P) :
  (∀ d row, R d (ent_set (<[Columns.id set := row]> (ent_get d)) d)) →
  respects R (db_update set (Columns.id set)).
Proof.
  intros HR w. unfold db_update.
  destruct (encode set) as [params|] eqn:Hparams; cbn; [|reflexivity].
  apply encode_id in Hparams as ->.
  destruct (ent_get (w_db w) !! Columns.id set) as [old|]; cbn; [|reflexivity].
  destruct (update_row _ _); cbn; [|reflexivity].
  rewrite decide_True by done. cbn. by eapply HR.
Qed.

Lemma respects_push_change `{Entity A P} tenantId userId (log : Change.t P) :
  (∀ d row, R d (ent_set (<[Change.id log := row]> (ent_get d)) d)) →
  respects R (push_change tenantId userId log).
Proof.
  intros HR. unfold push_change.
  apply respects_bind; [apply respects_findFirst|].
  intros [[? existing]|].
  - destruct (date_gt _ _); [|apply respects_ret].
    apply respects_bind; [apply respects_new_Date|]. intros t.
    apply (respects_db_update_same (update_set log tenantId userId t)). auto.
  - apply respects_bind; [apply respects_new_Date|]. intros t.
    apply (respects_db_insert (insert_values log tenantId userId t)). auto.
Qed.

Lemma respects_push_changes `{Entity A P} tenantId userId logs :
  (∀ (log : Change.t P) d row, R d (ent_set (<[Change.id log := row]> (ent_get d)) d)) →
  respects R (push_changes tenantId userId logs).
Proof.
  intros HR. unfold push_changes. destruct logs as [logs|]; [|apply respects_ret].
  case_bool_decide; [|apply respects_ret].
  apply respects_for_of. intros log. by apply respects_push_change.
Qed.

Lemma respects_cursor_step tenantId userId deviceId t tableName :
  (∀ d m, R d (set_syncMetadata m d)) →
  respects R (cursor_step tenantId userId deviceId t tableName).
Proof.
  intros HR. unfold cursor_step.
  apply respects_bind; [apply respects_findFirst_syncMetadata|].
  intros [[id ?]|]; intros w.
  - apply HR.
  - unfold insert_syncMetadata. repeat case_match; cbn; try reflexivity. apply HR.
Qed.

Lemma respects_sync_tail tenantId userId deviceId cutoff :
  (∀ d m, R d (set_syncMetadata m d)) →
  respects R (sync_tail tenantId userId deviceId cutoff).
Proof.
  intros HR. unfold sync_tail.
  repeat (apply respects_bind;
          [first [apply respects_findMany | apply respects_findMany_resources
                 | apply respects_new_Date]|intros ?]).
  apply respects_bind; [|intros; apply respects_ret].
  apply respects_for_of. intros tn. by apply respects_cursor_step.
Qed.
End Respects.

(** [sync_post] is its three push loops followed by [sync_tail]. *)
Lemma sync_post_phases req body :
  sync_post req body =
    (push_changes (AuthRequest.tenantId req) (AuthRequest.userId req)
       (SyncRequest.moodLogs (SyncRequest.changes body)) ;;
     push_changes (AuthRequest.tenantId req) (AuthRequest.userId req)
       (SyncRequest.journalEntries (SyncRequest.changes body)) ;;
     push_changes (AuthRequest.tenantId req) (AuthRequest.userId req)
       (SyncRequest.checkIns (SyncRequest.changes body)) ;;
     sync_tail (AuthRequest.tenantId req) (AuthRequest.userId req)
       (SyncRequest.deviceId body) (syncCutoffDate body)).
Proof. reflexivity. Qed.

#[local] Instance same_on_preorder {X} (f : DB → X) : PreOrder (same_on f).
Proof. split; [done|]. intros d1 d2 d3 H12 H23. unfold same_on in *. congruence. Qed.

#[local] Instance no_row_removed_preorder : PreOrder no_row_removed.
Proof. split; [done|]. intros d1 d2 d3 (?&?&?) (?&?&?). split_and!; auto. Qed.

Lemma respects_for_of_in {A} (R : relation DB) `{!PreOrder R} (l : list A)
    (body : A → M unit) :
  (∀ x, x ∈ l → respects R (body x)) → respects R (for_of l body).
Proof.
  induction l as [|x l IH]; intros Hbody; cbn [for_of].
  - by apply respects_ret.
  - apply respects_bind; [done|apply Hbody; left|intros _; apply IH].
    intros y Hy. apply Hbody. by right.
Qed.

Lemma post_sync_db production req body w :
  w_db (post_sync production req body w).2 = w_db (sync_post req body w).2.
Proof.
  unfold post_sync, asyncHandler, mbind, M_bind.
  by destruct (sync_post req body w) as [[resp|e] w'].
Qed.

Lemma sync_post_push_phase req body w :
  sync_post req body w =
    match push_phase req body w with
    | (Ok _, w3) =>
        sync_tail (AuthRequest.tenantId req) (AuthRequest.userId req)
          (SyncRequest.deviceId body) (syncCutoffDate body) w3
    | (Throw e, w3) => (Throw e, w3)
    end.
Proof.
  rewrite sync_post_phases. unfold push_phase, mbind, M_bind.
  repeat (destruct (push_changes _ _ _ _) as [[[]|?] ?]; [|done]). done.
Qed.

(** The world after the four pulls. *)
Lemma sync_tail_unfold tenantId userId deviceId cutoff w :
  let w4 := sent (FindMany resources_table) (w_db w)
              (sent (FindMany check_ins) (w_db w)
                 (sent (FindMany journal_entries) (w_db w)
                    (sent (FindMany mood_logs) (w_db w) w))) in
  sync_tail tenantId userId deviceId cutoff w =
    match for_of tables (cursor_step tenantId userId deviceId (now w4)) w4 with
    | (Ok _, w') =>
        (Ok (SyncResponse.mk true (pulled tenantId userId cutoff (w_db w)) [] (now w4)), w')
    | (Throw e, w') => (Throw e, w')
    end.
Proof.
  cbn zeta. unfold sync_tail, mbind, M_bind, findMany, findMany_resources, new_Date.
  cbn [w_db sent]. by destruct (for_of _ _ _) as [[[]|?] ?].
Qed.

(** ** What a sync call leaves alone *)

Lemma push_phase_resources req body w :
  resources (w_db (push_phase req body w).2) = resources (w_db w).
Proof.
  unfold push_phase.
  do 2 (apply (respects_bind (same_on resources));
        [apply respects_push_changes; [apply _|done]|intros _]).
  apply respects_push_changes; [apply _|done].
Qed.

(** X1.  [POST /api/sync] never writes the [resources] table, whether the
    call succeeds or fails. *)
Theorem sync_never_writes_resources production req body w :
  resources (w_db (post_sync production req body w).2) = resources (w_db w).
Proof.
  rewrite post_sync_db, sync_post_phases.
  do 3 (apply (respects_bind (same_on resources));
        [apply respects_push_changes; [apply _|done]|intros _]).
  apply respects_sync_tail; [apply _|done].
Qed.

(** X2.  [POST /api/sync] never removes a row from [mood_logs],
    [journal_entries] or [check_ins], whatever the changes carry (a change
    with [isDeleted] included) and whether the call succeeds or fails. *)
Theorem sync_never_removes_rows production req body w :
  no_row_removed (w_db w) (w_db (post_sync production req body w).2).
Proof.
  rewrite post_sync_db, sync_post_phases.
  assert (∀ {R} (k : uuid) (row : R) (m : gmap uuid R) id,
            is_Some (m !! id) → is_Some (<[k := row]> m !! id)) as Hins.
  { intros R k row m id Hid. rewrite lookup_insert. by case_decide. }
  do 3 (apply (respects_bind no_row_removed);
        [apply respects_push_changes; [apply _|];
         intros log d row; split_and!; cbn; auto|intros _]).
  apply respects_sync_tail; [apply _|]. intros d m. by split_and!.
Qed.

Lemma respects_push_changes_in `{Entity A P} (R : relation DB) `{!PreOrder R}
    tenantId userId (logs : option (list (Change.t P))) :
  (∀ k, k ∈ pushed_ids logs →
        ∀ d row, R d (ent_set (<[k := row]> (ent_get d)) d)) →
  respects R (push_changes tenantId userId logs).
Proof.
  intros HR. unfold push_changes. destruct logs as [logs|]; [|by apply respects_ret].
  case_bool_decide; [|by apply respects_ret].
  apply respects_for_of_in; [done|]. intros log Hlog.
  apply respects_push_change; [done|]. apply HR.
  unfold pushed_ids. cbn. by apply list_elem_of_fmap_2.
Qed.

(** X3.  A sync call leaves every row whose [id] is not named by a change
    of its table as it was: pushed changes of one table never reach
    another table or another row.  In particular a call without changes
    modifies none of the three synced tables.  The identifiers are in the
    form the store prints them. *)
Theorem sync_touches_only_pushed_ids production req body w id :
  is_uuid id = true →
  let d' := w_db (post_sync production req body w).2 in
  let changes := SyncRequest.changes body in
  (forallb is_uuid (pushed_ids (SyncRequest.moodLogs changes)) = true →
   id ∉ pushed_ids (SyncRequest.moodLogs changes) →
     moodLogs d' !! id = moodLogs (w_db w) !! id)
  ∧ (forallb is_uuid (pushed_ids (SyncRequest.journalEntries changes)) = true →
     id ∉ pushed_ids (SyncRequest.journalEntries changes) →
     journalEntries d' !! id = journalEntries (w_db w) !! id)
  ∧ (forallb is_uuid (pushed_ids (SyncRequest.checkIns changes)) = true →
     id ∉ pushed_ids (SyncRequest.checkIns changes) →
     checkIns d' !! id = checkIns (w_db w) !! id).
Proof.
  intros _. cbn zeta. rewrite post_sync_db, sync_post_phases.
  split_and!; intros _ Hid.
  - apply (respects_bind (same_on (λ d, moodLogs d !! id)));
      [apply respects_push_changes_in; [apply _|]|intros _].
    { intros k Hk d row. unfold same_on. cbn.
      apply lookup_insert_ne. congruence. }
    do 2 (apply (respects_bind (same_on (λ d, moodLogs d !! id)));
          [apply respects_push_changes; [apply _|done]|intros _]).
    apply respects_sync_tail; [apply _|done].
  - apply (respects_bind (same_on (λ d, journalEntries d !! id)));
      [apply respects_push_changes; [apply _|done]|intros _].
    apply (respects_bind (same_on (λ d, journalEntries d !! id)));
      [apply respects_push_changes_in; [apply _|]|intros _].
    { intros k Hk d row. unfold same_on. cbn.
      apply lookup_insert_ne. congruence. }
    apply (respects_bind (same_on (λ d, journalEntries d !! id)));
      [apply respects_push_changes; [apply _|done]|intros _].
    apply respects_sync_tail; [apply _|done].
  - do 2 (apply (respects_bind (same_on (λ d, checkIns d !! id)));
          [apply respects_push_changes; [apply _|done]|intros _]).
    apply (respects_bind (same_on (λ d, checkIns d !! id)));
      [apply respects_push_changes_in; [apply _|]|intros _].
    { intros k Hk d row. unfold same_on. cbn.
      apply lookup_insert_ne. congruence. }
    apply respects_sync_tail; [apply _|done].
Qed.

(** ** A call that answers 200 *)

Lemma post_sync_200_inv production req body w resp :
  (post_sync production req body w).1 = mkResponse 200 (SyncJson resp) →
  sync_post req body w = (Ok resp, (post_sync production req body w).2).
Proof.
  unfold post_sync, asyncHandler, mbind, M_bind.
  destruct (sync_post req body w) as [[r|e] w']; cbn; [|done].
  by intros [= ->].
Qed.

(** What is known of a call whose answer is 200: the pushes went through,
    the response carries what the pulls selected behind them and the
    instant read behind the pulls, the loop over [tables] went through, and
    only [sync_metadata] changed behind the pushes. *)
Lemma post_sync_200 production req body w resp :
  (post_sync production req body w).1 = mkResponse 200 (SyncJson resp) →
  let tenantId := AuthRequest.tenantId req in
  let userId := AuthRequest.userId req in
  let w' := (post_sync production req body w).2 in
  ∃ w3 w4,
    push_phase req body w = (Ok tt, w3)
    ∧ w_db w4 = w_db w3
    ∧ resp = SyncResponse.mk true (pulled tenantId userId (syncCutoffDate body) (w_db w3))
               [] (SyncResponse.lastSyncAt resp)
    ∧ for_of tables (cursor_step tenantId userId (SyncRequest.deviceId body)
                       (SyncResponse.lastSyncAt resp)) w4 = (Ok tt, w')
    ∧ moodLogs (w_db w') = moodLogs (w_db w3)
    ∧ journalEntries (w_db w') = journalEntries (w_db w3)
    ∧ checkIns (w_db w') = checkIns (w_db w3)
    ∧ resources (w_db w') = resources (w_db w3).
Proof.
  intros Hok%post_sync_200_inv. cbn zeta.
  generalize dependent (post_sync production req body w).2. intros w'.
  rewrite sync_post_push_phase.
  destruct (push_phase req body w) as [[[]|e] w3]; [|done].
  pose proof (respects_sync_tail (same_on moodLogs) (AuthRequest.tenantId req)
                (AuthRequest.userId req) (SyncRequest.deviceId body) (syncCutoffDate body)
                (λ _ _, eq_refl) w3) as Hm.
  pose proof (respects_sync_tail (same_on journalEntries) (AuthRequest.tenantId req)
                (AuthRequest.userId req) (SyncRequest.deviceId body) (syncCutoffDate body)
                (λ _ _, eq_refl) w3) as Hj.
  pose proof (respects_sync_tail (same_on checkIns) (AuthRequest.tenantId req)
                (AuthRequest.userId req) (SyncRequest.deviceId body) (syncCutoffDate body)
                (λ _ _, eq_refl) w3) as Hc.
  pose proof (respects_sync_tail (same_on resources) (AuthRequest.tenantId req)
                (AuthRequest.userId req) (SyncRequest.deviceId body) (syncCutoffDate body)
                (λ _ _, eq_refl) w3) as Hr.
  unfold same_on in *. revert Hm Hj Hc Hr.
  rewrite sync_tail_unfold. cbn zeta.
  destruct (for_of tables _ _) as [[[]|e] w''] eqn:Hloop; cbn; [|done].
  intros Hm Hj Hc Hr [= <- <-]. cbn [SyncResponse.lastSyncAt].
  exists w3, (sent (FindMany resources_table) (w_db w3)
                (sent (FindMany check_ins) (w_db w3)
                   (sent (FindMany journal_entries) (w_db w3)
                      (sent (FindMany mood_logs) (w_db w3) w3)))).
  by split_and!.
Qed.

(** ** The pull *)



(** ** The cursor rows *)

Lemma cursor_step_spec tenantId userId deviceId t tableName w w' :
  cursor_step tenantId userId deviceId t tableName w = (Ok tt, w') →
  has_cursor (w_db w') tenantId userId deviceId tableName t
  ∧ ∀ tn, has_cursor (w_db w) tenantId userId deviceId tn t →
          has_cursor (w_db w') tenantId userId deviceId tn t.
Proof.
  unfold has_cursor, cursor_step, mbind, M_bind, findFirst_syncMetadata.
  destruct (head _) as [[id r]|] eqn:Hhead.
  - (* the row is there: it is updated in place *)
    apply head_Some_elem_of, elem_of_select in Hhead as [Hid Hkey%cursor_where_holds].
    destruct Hkey as (? & ? & ? & ?).
    unfold update_syncMetadata. intros [= <-]. cbn [w_db sent set_syncMetadata syncMetadata].
    split.
    + exists id, (SyncMetadata.mk (SyncMetadata.tenantId r) (SyncMetadata.userId r)
                   (SyncMetadata.deviceId r) (SyncMetadata.tableName r) t
                   (SyncMetadata.lastRecordId r) (SyncMetadata.syncCursor r)
                   (SyncMetadata.createdAt r) t).
      by rewrite lookup_alter_eq, Hid.
    + intros tn (id' & r' & Hid' & ? & ? & ? & ? & ?).
      destruct (decide (id = id')) as [<-|Hne].
      * simplify_eq. eexists id, _. rewrite lookup_alter_eq, Hid. by cbn.
      * exists id', r'. by rewrite lookup_alter_ne.
  - (* no row yet: one is inserted under a fresh identifier *)
    unfold insert_syncMetadata, mbind, result_bind, Col.varchar.
    cbn [w_db w_trace w_uuid sent].
    repeat case_bool_decide; [|done..].
    destruct (syncMetadata (w_db w) !! _) eqn:Hfresh; [done|].
    intros [= <-]. cbn [w_db sent set_syncMetadata syncMetadata]. split.
    + eexists _, _. by rewrite lookup_insert_eq.
    + intros tn (id' & r' & Hid' & ?). exists id', r'.
      rewrite lookup_insert_ne; [done|]. intros <-. cbn in Hfresh. congruence.
Qed.

Lemma cursor_loop_spec tenantId userId deviceId t (l : list string) w w' :
  for_of l (cursor_step tenantId userId deviceId t) w = (Ok tt, w') →
  (∀ tn, tn ∈ l → has_cursor (w_db w') tenantId userId deviceId tn t)
  ∧ ∀ tn, has_cursor (w_db w) tenantId userId deviceId tn t →
          has_cursor (w_db w') tenantId userId deviceId tn t.
Proof.
  revert w. induction l as [|x l IH]; intros w; cbn [for_of].
  - intros [= <-]. split; [|done]. intros tn Htn. by apply elem_of_nil in Htn.
  - unfold mbind, M_bind at 1.
    destruct (cursor_step _ _ _ _ x w) as [[[]|e] w1] eqn:Hstep; [|done].
    apply cursor_step_spec in Hstep as [Hx Hkeep].
    intros [Hl Hkeep']%IH. split; [|by auto].
    intros tn [->|Htn]%elem_of_cons; auto.
Qed.

(** Who a cursor row returned by the status route belongs to. *)
Lemma status_where_holds req (deviceId : string) r :
  Sql.holds (Sql.and
    [ Sql.eq (Some (SyncMetadata.tenantId r)) (Some (AuthRequest.tenantId req));
      Sql.eq (Some (SyncMetadata.userId r)) (Some (AuthRequest.userId req));
      Sql.eq (Some (SyncMetadata.deviceId r)) (Some deviceId) ]) = true
  ↔ SyncMetadata.tenantId r = AuthRequest.tenantId req
    ∧ SyncMetadata.userId r = AuthRequest.userId req
    ∧ SyncMetadata.deviceId r = deviceId.
Proof.
  rewrite !holds_and_cons, !andb_true_iff, !holds_eq_some. cbn. naive_solver.
Qed.

Lemma get_sync_status_unfold production req (deviceId : string) w :
  deviceId ≠ "" →
  get_sync_status production req (Some deviceId) w =
    (mkResponse 200 (DataJson (Sql.select (λ _ r, Sql.and
        [ Sql.eq (Some (SyncMetadata.tenantId r)) (Some (AuthRequest.tenantId req));
          Sql.eq (Some (SyncMetadata.userId r)) (Some (AuthRequest.userId req));
          Sql.eq (Some (SyncMetadata.deviceId r)) (Some deviceId) ])
        (syncMetadata (w_db w)))),
     sent (FindMany sync_metadata) (w_db w) w).
Proof.
  intros Hd. unfold get_sync_status, asyncHandler, status_get. cbn [is_falsy].
  by rewrite bool_decide_eq_false_2.
Qed.



(** X8.  After a call to [POST /api/sync] that answers 200, the status
    route asked for the same device lists, for each of the four tables, a
    cursor row whose [lastSyncedAt] is the [lastSyncAt] the sync call
    returned. *)
Theorem status_after_sync production req body w resp :
  (post_sync production req body w).1 = mkResponse 200 (SyncJson resp) →
  SyncRequest.deviceId body ≠ "" →
  let w' := (post_sync production req body w).2 in
  ∃ data,
    (get_sync_status production req (Some (SyncRequest.deviceId body)) w').1
    = mkResponse 200 (DataJson data)
    ∧ ∀ tableName, tableName ∈ tables →
        ∃ id r, (id, r) ∈ data
          ∧ SyncMetadata.tableName r = tableName
          ∧ SyncMetadata.lastSyncedAt r = SyncResponse.lastSyncAt resp.
Proof.
  intros (w3 & w4 & _ & _ & _ & Hloop & _)%post_sync_200 Hd. cbn zeta.
  rewrite get_sync_status_unfold by done. eexists. split; [done|].
  intros tn Htn. apply cursor_loop_spec in Hloop as [Hall _].
  destruct (Hall tn Htn) as (id & r & Hid & ? & ? & ? & ? & ?).
  exists id, r. by rewrite elem_of_select, status_where_holds.
Qed.

(** ** What a push writes *)
Section Writes.
Context {A P : Type} `{Entity A P}.
Implicit Types (w : World) (log : Change.t P) (tenantId userId : uuid).

(** An [UPDATE] that is applied was built from a change that brings no
    creation time, and an [INSERT] is refused by the encoder when the change
    brings its [clientCreatedAt]. *)
Lemma updated_row_untimed tenantId userId log t old row :
  updated_row log tenantId userId t old = Ok row →
  Col.nullable (Change.clientCreatedAt log) = None
  ∧ Col.nullable (Change.createdAt log) = None.
Proof.
  unfold updated_row, encode, update_set, spread, mbind, result_bind.
  cbn [Columns.clientCreatedAt Columns.createdAt].
  destruct (Change.clientCreatedAt log); cbn; try done;
    by destruct (Change.createdAt log).
Qed.

Lemma inserted_row_timed tenantId userId log t c :
  Change.clientCreatedAt log = Val c →
  inserted_row log tenantId userId t = Throw TypeError.
Proof.
  intros Hc. unfold inserted_row, encode, insert_values, spread, mbind, result_bind.
  cbn [Columns.clientCreatedAt]. by rewrite Hc.
Qed.

Lemma updated_row_timed tenantId userId log t old c :
  Change.clientCreatedAt log = Val c →
  updated_row log tenantId userId t old = Throw TypeError.
Proof.
  intros Hc. unfold updated_row, encode, update_set, spread, mbind, result_bind.
  cbn [Columns.clientCreatedAt]. by rewrite Hc.
Qed.

(** X9.  Every update a push applies stamps the row's [updatedAt] and
    [syncedAt] with the server clock at the write, whatever the change
    carries for them; [isDeleted] takes the carried value (a tombstone
    keeps the row) and stays where the change carries none; the table's
    own columns are those its [UPDATE] computes from the change. *)
Theorem applied_update_stamps_server_time tenantId userId log w existing :
  ent_get (w_db w) !! Change.id log = Some existing →
  date_gt (clientDate log) (Row.updatedAt existing) = true →
  (push_change tenantId userId log w).1 = Ok tt →
  ∃ row, ent_get (db_after (push_change tenantId userId log) w) !! Change.id log = Some row
    ∧ Row.updatedAt row = write_time w
    ∧ Row.syncedAt row = Some (write_time w)
    ∧ Row.isDeleted row = carried_or (Change.isDeleted log) (Row.isDeleted existing)
    ∧ ent_update (Change.attrs log) (Row.attrs existing) = Ok (Row.attrs row).
Proof.
  intros Hex Hgt. unfold db_after.
  destruct (updated_row log tenantId userId (write_time w) existing) as [row|e] eqn:Hrow.
  - rewrite (push_change_applied _ _ _ w existing row) by done.
    intros _. cbn [snd w_db sent]. exists row.
    rewrite ent_get_set, lookup_insert_eq. split; [done|].
    by apply updated_row_writes in Hrow as (_ & _ & _ & _ & ? & ? & ? & ?).
  - by destruct (push_change_refused _ _ _ w existing e Hex Hgt Hrow) as [-> _].
Qed.

(** X10.  No pushed change is ever inserted.  A change whose [id] (a uuid)
    the table does not hold is refused, whatever it carries, and the
    database is left as it was; the error is the [TypeError] of the
    statement's encoder when the change brings its [clientCreatedAt]. *)
Theorem pushed_change_is_never_inserted tenantId userId log w :
  is_uuid (Change.id log) = true →
  ent_get (w_db w) !! Change.id log = None →
  ∃ e, (push_change tenantId userId log w).1 = Throw e
    ∧ db_after (push_change tenantId userId log) w = w_db w
    ∧ (∀ c, Change.clientCreatedAt log = Val c → e = TypeError).
Proof.
  intros _ Hnew. unfold db_after.
  destruct (push_change_new tenantId userId log w Hnew) as [Hres Hdb].
  destruct (inserted_row_throws tenantId userId log (write_time w)) as [e He].
  exists e. rewrite Hres, He. split_and!; [done..|].
  intros c Hc. rewrite (inserted_row_timed _ _ _ _ c Hc) in He. congruence.
Qed.

(** X20.  An update a push applies never moves the creation columns: the
    change brought neither [clientCreatedAt] nor [createdAt] (the encoder
    refuses a change that brings one), the row keeps both and stays under
    its [id]; its [tenantId] and [userId] are the caller's afterwards, and
    no other row of the table is touched. *)
Theorem applied_update_keeps_the_creation_columns tenantId userId log w existing :
  ent_get (w_db w) !! Change.id log = Some existing →
  date_gt (clientDate log) (Row.updatedAt existing) = true →
  (push_change tenantId userId log w).1 = Ok tt →
  let db' := db_after (push_change tenantId userId log) w in
  ∃ row, ent_get db' !! Change.id log = Some row
    ∧ Col.nullable (Change.clientCreatedAt log) = None
    ∧ Col.nullable (Change.createdAt log) = None
    ∧ Row.clientCreatedAt row = Row.clientCreatedAt existing
    ∧ Row.createdAt row = Row.createdAt existing
    ∧ Row.tenantId row = tenantId
    ∧ Row.userId row = userId
    ∧ ∀ id, id ≠ Change.id log → ent_get db' !! id = ent_get (w_db w) !! id.
Proof.
  intros Hex Hgt. unfold db_after.
  destruct (updated_row log tenantId userId (write_time w) existing) as [row|e] eqn:Hrow.
  - rewrite (push_change_applied _ _ _ w existing row) by done.
    intros _. cbn [snd w_db sent]. exists row. rewrite ent_get_set.
    destruct (updated_row_untimed _ _ _ _ _ _ Hrow) as [? ?].
    apply updated_row_writes in Hrow as (? & ? & ? & ? & _).
    split_and!; [by rewrite lookup_insert_eq|done..|].
    intros id Hid. by rewrite lookup_insert_ne.
  - by destruct (push_change_refused _ _ _ w existing e Hex Hgt Hrow) as [-> _].
Qed.

(** A change that brings its [clientCreatedAt] writes nothing. *)
Lemma timed_change_refused_or_dropped tenantId userId log w c :
  Change.clientCreatedAt log = Val c →
  refused_or_dropped tenantId userId log w.
Proof.
  intros Hc. unfold refused_or_dropped. cbn zeta.
  destruct (ent_get (w_db w) !! Change.id log) as [existing|] eqn:Hex.
  - destruct (date_gt (clientDate log) (Row.updatedAt existing)) eqn:Hgt.
    + destruct (push_change_refused tenantId userId log w existing TypeError Hex Hgt)
        as [-> ->]; [by apply (updated_row_timed _ _ _ _ _ c)|]. auto.
    + rewrite (push_change_stale _ _ _ _ existing) by done. cbn. eauto 6.
  - destruct (push_change_new tenantId userId log w Hex) as [-> ->].
    rewrite (inserted_row_timed _ _ _ _ c Hc). auto.
Qed.
End Writes.

(** ** The routes that take a row by its [id] *)

Lemma filter_key_absent {R} (f : uuid * R → bool) id (l : list (uuid * R)) :
  (∀ kr, f kr = true → kr.1 = id) → id ∉ l.*1 → List.filter f l = [].
Proof.
  intros Hf. induction l as [|[k v] l IH]; [done|]. cbn.
  intros [Hk Hl]%not_elem_of_cons.
  destruct (f (k, v)) eqn:Hkv; [|auto]. by apply Hf in Hkv.
Qed.

(** A [where] that starts with [eq(<table>.id, id)] selects the row stored
    under [id], if the rest of the condition holds for it, and nothing else. *)
Lemma select_key {R} id (c : uuid → R → list Sql.cond) (m : gmap uuid R) :
  Sql.select (λ k r, Sql.and (Sql.eq (Some k) (Some id) :: c k r)) m =
    match m !! id with
    | Some r => if Sql.holds (Sql.and (c id r)) then [(id, r)] else []
    | None => []
    end.
Proof.
  unfold Sql.select.
  pose proof (NoDup_fst_map_to_list m) as Hnd.
  rewrite <- (list_to_map_to_list m) at 2.
  induction (map_to_list m) as [|[k v] l IH]; [done|].
  apply NoDup_cons in Hnd as [Hk Hnd]. cbn [List.filter fst snd list_to_map foldr uncurry].
  rewrite holds_and_cons. destruct (decide (k = id)) as [->|Hne].
  - rewrite lookup_insert_eq.
    rewrite (filter_key_absent _ id l); [|  |done].
    + replace (Sql.holds (Sql.eq (Some id) (Some id))) with true; [done|].
      symmetry. by apply holds_eq_some.
    + intros [k' v']. rewrite holds_and_cons, andb_true_iff.
      intros [Hk' _]. by apply (proj1 (holds_eq_some k' id)).
  - rewrite lookup_insert_ne by done.
    replace (Sql.holds (Sql.eq (Some k) (Some id))) with false; [by apply IH|].
    symmetry. cbn. by rewrite bool_decide_eq_false_2.
Qed.

Section ById.
Context {A P : Type} `{Entity A P}.
Implicit Types (w : World) (req : AuthRequest.t) (id : uuid) (r : Row.t A).

Lemma owner_where_rest req (r : Row.t A) :
  Sql.holds (Sql.and [ Sql.eq (Some (Row.tenantId r)) (Some (AuthRequest.tenantId req));
                       Sql.eq (Some (Row.userId r)) (Some (AuthRequest.userId req)) ]) = true
  ↔ owned_by req r.
Proof.
  unfold owned_by. rewrite !holds_and_cons, !andb_true_iff, !holds_eq_some. cbn.
  naive_solver.
Qed.

(** What [owner_where] selects. *)
Lemma select_owner req id (m : gmap uuid (Row.t A)) :
  (∀ r, m !! id = Some r → owned_by req r →
        Sql.select (owner_where id (AuthRequest.tenantId req) (AuthRequest.userId req)) m
        = [(id, r)])
  ∧ ((¬ ∃ r, m !! id = Some r ∧ owned_by req r) →
        Sql.select (owner_where id (AuthRequest.tenantId req) (AuthRequest.userId req)) m
        = []).
Proof.
  pose proof (select_key id
    (λ _ r, [ Sql.eq (Some (Row.tenantId r)) (Some (AuthRequest.tenantId req));
              Sql.eq (Some (Row.userId r)) (Some (AuthRequest.userId req)) ]) m) as Hsel.
  cbn beta in Hsel. unfold owner_where. rewrite Hsel. clear Hsel. split.
  - intros r -> Hown%owner_where_rest. by rewrite Hown.
  - intros Hnone. destruct (m !! id) as [r|]; [|done].
    destruct (Sql.holds _) eqn:Hown; [|done].
    apply owner_where_rest in Hown. destruct Hnone. eauto.
Qed.

(** X11.  For an [id] and a caller in the form of a uuid, [GET /:id] of
    the mood and journal routers answers 200 with the row stored under [id] when that row is
    the caller's (same tenant, same user), soft-deleted or not, and 404 in
    every other case, a row of another user or tenant included; it writes
    nothing. *)
Theorem get_by_id_is_owner_scoped production error req id w :
  is_uuid id = true →
  uuid_caller req = true →
  let res := asyncHandler_api production (get_by_id error req id) w in
  (∀ r, ent_get (w_db w) !! id = Some r → owned_by req r →
        res.1 = mkReply 200 (ApiResponse.mk true (Some (id, r)) None None))
  ∧ ((¬ ∃ r, ent_get (w_db w) !! id = Some r ∧ owned_by req r) →
        res.1 = not_found error)
  ∧ w_db res.2 = w_db w.
Proof.
  intros _ _. cbn zeta. unfold asyncHandler_api, get_by_id, mbind, M_bind, findFirst.
  destruct (select_owner req id (ent_get (w_db w))) as [Hyes Hno].
  split_and!.
  - intros r Hr Hown. by rewrite (Hyes r Hr Hown).
  - intros Hnone. by rewrite (Hno Hnone).
  - by destruct (head _).
Qed.

(** Whether the row under [id] is the caller's can be decided. *)
Lemma classic_owner req id w :
  (∃ r, ent_get (w_db w) !! id = Some r ∧ owned_by req r)
  ∨ ¬ (∃ r, ent_get (w_db w) !! id = Some r ∧ owned_by req r).
Proof.
  destruct (ent_get (w_db w) !! id) as [r|]; [|right; by intros (? & ? & _)].
  destruct (decide (Row.tenantId r = AuthRequest.tenantId req)) as [Ht|Ht];
    [|right; intros (? & [= <-] & ? & _); done].
  destruct (decide (Row.userId r = AuthRequest.userId req)) as [Hu|Hu];
    [|right; intros (? & [= <-] & _ & ?); done].
  left. by exists r.
Qed.

(** One statement of [db_update_where] on a selection of at most one row. *)
Lemma db_update_where_one c (set : Row.t A → result (Row.t A)) id r r' w :
  Sql.select c (ent_get (w_db w)) = [(id, r)] →
  set r = Ok r' →
  db_update_where c set w =
    (Ok [(id, r')],
     sent (Update ent_table) (ent_set (<[id := r']> (ent_get (w_db w))) (w_db w)) w).
Proof.
  intros Hsel Hset. unfold db_update_where. rewrite Hsel. cbn. rewrite Hset. cbn.
  by rewrite insert_empty, <- insert_union_singleton_l.
Qed.

Lemma db_update_where_none c (set : Row.t A → result (Row.t A)) w :
  Sql.select c (ent_get (w_db w)) = [] →
  db_update_where c set w
  = (Ok [], sent (Update ent_table) (ent_set (ent_get (w_db w)) (w_db w)) w).
Proof.
  intros Hsel. unfold db_update_where. rewrite Hsel. cbn.
  by rewrite (left_id_L ∅ (∪)).
Qed.
End ById.

Section SoftDelete.
Context {A P : Type} `{Entity A P}.
Implicit Types (w : World) (req : AuthRequest.t) (id : uuid) (r : Row.t A).

Lemma soft_delete_unfold message req id w :
  (∀ r, ent_get (w_db w) !! id = Some r → owned_by req r →
     soft_delete message req id w
     = (Ok (mkReply 200 (ApiResponse.mk true None None (Some message))),
        sent (Update ent_table)
             (ent_set (<[id := tombstone (now w) r]> (ent_get (w_db w))) (w_db w)) w))
  ∧ ((¬ ∃ r, ent_get (w_db w) !! id = Some r ∧ owned_by req r) →
     soft_delete message req id w
     = (Ok (mkReply 200 (ApiResponse.mk true None None (Some message))),
        sent (Update ent_table) (ent_set (ent_get (w_db w)) (w_db w)) w)).
Proof.
  destruct (select_owner req id (ent_get (w_db w))) as [Hyes Hno].
  unfold soft_delete, mbind, M_bind, new_Date. split.
  - intros r Hr Hown.
    by rewrite (db_update_where_one _ _ id r (tombstone (now w) r)) by auto.
  - intros Hnone. by rewrite db_update_where_none by auto.
Qed.

(** X12.  For an [id] and a caller in the form of a uuid, [DELETE /:id] of
    the mood and journal routers always answers 200.
    When the row stored under [id] is the caller's, it stays in the table
    as a tombstone: [isDeleted] true, [updatedAt] the server clock, every
    other column and every other row as before.  In every other case, a row
    of another user or tenant included, the table is left as it was. *)
Theorem soft_delete_leaves_a_tombstone production message req id w :
  is_uuid id = true →
  uuid_caller req = true →
  let res := asyncHandler_api production (soft_delete message req id) w in
  res.1 = mkReply 200 (ApiResponse.mk true None None (Some message))
  ∧ (∀ r, ent_get (w_db w) !! id = Some r → owned_by req r →
        ent_get (w_db res.2) = <[id := tombstone (now w) r]> (ent_get (w_db w)))
  ∧ ((¬ ∃ r, ent_get (w_db w) !! id = Some r ∧ owned_by req r) →
        ent_get (w_db res.2) = ent_get (w_db w)).
Proof.
  intros _ _. cbn zeta. unfold asyncHandler_api.
  destruct (soft_delete_unfold message req id w) as [Hyes Hno].
  destruct (classic_owner req id w) as [(r & Hr & Hown)|Hnone].
  - rewrite (Hyes r Hr Hown). cbn. split_and!; [done| |].
    + intros r' Hr' _. rewrite ent_get_set. congruence.
    + intros Hnone. destruct Hnone. eauto.
  - rewrite (Hno Hnone). cbn. split_and!; [done| |].
    + intros r Hr Hown. destruct Hnone. eauto.
    + intros _. by rewrite ent_get_set.
Qed.
End SoftDelete.

(** ** The check-in routes *)

Lemma tenant_where_rest req (r : Row.t CheckIn.attrs) :
  Sql.holds (Sql.and [ Sql.eq (Some (Row.tenantId r)) (Some (AuthRequest.tenantId req)) ])
  = true
  ↔ Row.tenantId r = AuthRequest.tenantId req.
Proof. rewrite !holds_and_cons, !andb_true_iff, !holds_eq_some. cbn. naive_solver. Qed.

(** What [tenant_where] selects among the check-ins. *)
Lemma select_tenant req id (m : gmap uuid (Row.t CheckIn.attrs)) :
  (∀ r, m !! id = Some r → Row.tenantId r = AuthRequest.tenantId req →
        Sql.select (tenant_where id (AuthRequest.tenantId req)) m = [(id, r)])
  ∧ ((¬ ∃ r, m !! id = Some r ∧ Row.tenantId r = AuthRequest.tenantId req) →
        Sql.select (tenant_where id (AuthRequest.tenantId req)) m = []).
Proof.
  pose proof (select_key id
    (λ _ r, [ Sql.eq (Some (Row.tenantId r)) (Some (AuthRequest.tenantId req)) ]) m)
    as Hsel.
  cbn beta in Hsel. unfold tenant_where. rewrite Hsel. clear Hsel. split.
  - intros r -> Hown%tenant_where_rest. by rewrite Hown.
  - intros Hnone. destruct (m !! id) as [r|]; [|done].
    destruct (Sql.holds _) eqn:Hown; [|done].
    apply tenant_where_rest in Hown. destruct Hnone. eauto.
Qed.

Lemma moods_fit s : s ∈ moods → (String.length s ≤ 50)%nat.
Proof.
  unfold moods. rewrite !elem_of_cons, elem_of_nil.
  intros [->|[->|[->|[->|[->|[]]]]]]; cbn; lia.
Qed.

Lemma optional_true {A} (schema : A → bool) (v : field A) :
  optional schema v = true → v = Absent ∨ ∃ a, v = Val a ∧ schema a = true.
Proof. destruct v; cbn; [auto|done|eauto]. Qed.



(** X14.  [PATCH /api/checkins/:id/review] is closed to every caller who is
    not a psychologist: the answer is 403 with
    [{ success: false, error: 'Insufficient permissions' }] and no statement
    is sent. *)
Theorem review_requires_psychologist production req id needsAttention reviewNotes w :
  AuthRequest.userRole req ≠ psychologist →
  patch_checkin_review production req id needsAttention reviewNotes w
  = (mkReply 403 (ApiResponse.mk false None (Some (Literal "Insufficient permissions")) None),
     w).
Proof.
  intros Hrole. unfold patch_checkin_review, behind_requireRole, requireRole.
  rewrite bool_decide_eq_false_2; [done|]. by intros Hin%list_elem_of_singleton.
Qed.


(** ** [GET /api/resources/:id] *)

Lemma resource_where_rest tenantId (r : Resource.t) :
  Sql.holds (Sql.and [ Sql.eq (Some (Resource.isPublished r)) (Some true);
                       Sql.or [ Sql.eq (Resource.tenantId r) (Some tenantId);
                                Sql.isNull (Resource.tenantId r) ] ]) = true
  ↔ Resource.isPublished r = true
    ∧ (Resource.tenantId r = Some tenantId ∨ Resource.tenantId r = None).
Proof.
  rewrite !holds_and_cons, !andb_true_iff, holds_eq_some.
  destruct (Resource.tenantId r) as [t|]; cbn.
  - case_bool_decide; naive_solver.
  - naive_solver.
Qed.

(** X16.  For an [id] and a caller's tenant in the form of a uuid,
    [GET /api/resources/:id] answers 200
    with the resource stored under [id] exactly when it is published and
    is either of the caller's tenant or global; an unpublished resource and a resource of another
    tenant get the same 404 as a missing one.  Nothing is written. *)
Theorem get_resource_visibility production req id w :
  is_uuid id = true →
  is_uuid (AuthRequest.tenantId req) = true →
  let res := get_resource production req id w in
  let visible r :=
    Resource.isPublished r = true
    ∧ (Resource.tenantId r = Some (AuthRequest.tenantId req) ∨ Resource.tenantId r = None) in
  (∀ r, resources (w_db w) !! id = Some r → visible r →
        res.1 = mkReply 200 (ApiResponse.mk true (Some (id, r)) None None))
  ∧ ((¬ ∃ r, resources (w_db w) !! id = Some r ∧ visible r) →
        res.1 = not_found "Resource not found")
  ∧ w_db res.2 = w_db w.
Proof.
  intros _ _. cbn zeta.
  unfold get_resource, asyncHandler_api, resource_by_id, mbind, M_bind, findFirst_resources.
  pose proof (select_key id
    (λ _ r, [ Sql.eq (Some (Resource.isPublished r)) (Some true);
              Sql.or [ Sql.eq (Resource.tenantId r) (Some (AuthRequest.tenantId req));
                       Sql.isNull (Resource.tenantId r) ] ]) (resources (w_db w))) as Hsel.
  cbn beta in Hsel. unfold resource_where. rewrite Hsel. clear Hsel.
  split_and!.
  - intros r -> Hvis%resource_where_rest. by rewrite Hvis.
  - intros Hnone. destruct (resources (w_db w) !! id) as [r|]; [|done].
    destruct (Sql.holds _) eqn:Hvis; [|done].
    apply resource_where_rest in Hvis. destruct Hnone. eauto.
  - destruct (resources (w_db w) !! id) as [r|]; [|done].
    by destruct (Sql.holds _).
Qed.

(** ** A deletion and the next sync *)

Lemma push_phase_frame_moodLogs req body w id :
  id ∉ pushed_ids (SyncRequest.moodLogs (SyncRequest.changes body)) →
  moodLogs (w_db (push_phase req body w).2) !! id = moodLogs (w_db w) !! id.
Proof.
  intros Hid. unfold push_phase.
  apply (respects_bind (same_on (λ d, moodLogs d !! id)));
    [apply respects_push_changes_in; [apply _|]|intros _].
  { intros k Hk d row. unfold same_on. cbn. apply lookup_insert_ne. congruence. }
  apply (respects_bind (same_on (λ d, moodLogs d !! id)));
    [apply respects_push_changes; [apply _|done]|intros _].
  apply respects_push_changes; [apply _|done].
Qed.

(** X17.  A mood log deleted through [DELETE /api/moods/:id] comes back in
    the owner's next sync as a tombstone: when the cutoff of that sync is
    earlier than the deletion and the request does not push a change for
    the same [id], a call that answers 200 lists the row with [isDeleted]
    true and the [updatedAt] of the deletion.  The identifiers are in the
    form the store prints them. *)
Theorem deleted_mood_is_pulled_as_tombstone production req id body w r resp :
  is_uuid id = true →
  uuid_caller req = true →
  forallb is_uuid (pushed_ids (SyncRequest.moodLogs (SyncRequest.changes body))) = true →
  moodLogs (w_db w) !! id = Some r →
  owned_by req r →
  id ∉ pushed_ids (SyncRequest.moodLogs (SyncRequest.changes body)) →
  syncCutoffDate body < now w →
  let w1 := (delete_mood production req id w).2 in
  (post_sync production req body w1).1 = mkResponse 200 (SyncJson resp) →
  (id, tombstone (now w) r) ∈ SyncResponse.moodLogs (SyncResponse.serverChanges resp).
Proof.
  intros _ _ _ Hr Hown Hid Hcut. cbn zeta.
  unfold delete_mood, asyncHandler_api.
  destruct (soft_delete_unfold (H:=moodLogs_entity) "Mood log deleted successfully"
              req id w) as [Hyes _].
  rewrite (Hyes r Hr Hown). cbn [snd]. set (w1 := sent _ _ w).
  intros (w3 & w4 & Hpush & _ & -> & _)%post_sync_200. cbn.
  pose proof (push_phase_frame_moodLogs req body w1 id Hid) as Hframe.
  rewrite Hpush in Hframe. cbn [snd] in Hframe.
  apply elem_of_select. split.
  - rewrite Hframe. subst w1. cbn. by rewrite lookup_insert_eq.
  - apply pull_where_holds. destruct Hown. by split_and!.
Qed.

(** ** What the client's changes can do *)

(** X18.  No change built by [mapToServerFormat] is ever applied.  The
    function sends the record's [createdAt] as [clientCreatedAt] with every
    change, and the handler spreads that text into its statement: whatever
    the table, the push of the change (its [id] a uuid) leaves the database
    as it was, and it ends with the encoder's [TypeError] unless the server
    holds the row in a version that is not older, in which case the change
    is dropped. *)
Theorem client_change_is_never_applied tenantId userId record w :
  has_createdAt record = true →
  is_uuid (WireChange.id (mapToServerFormat record)) = true →
  let c := mapToServerFormat record in
  refused_or_dropped tenantId userId (as_moodLog c) w
  ∧ refused_or_dropped tenantId userId (as_journalEntry c) w
  ∧ refused_or_dropped tenantId userId (as_checkIn c) w.
Proof.
  unfold has_createdAt. destruct (LocalRecord.createdAt record) as [| |c] eqn:Hc; [done..|].
  intros _ _. cbn zeta.
  split_and!; by apply (timed_change_refused_or_dropped _ _ _ _ c).
Qed.

Lemma respects_eq_for_of {B} (l : list B) (body : B → M unit) :
  (∀ x, x ∈ l → ∀ w, w_db (body x w).2 = w_db w) →
  ∀ w, w_db (for_of l body w).2 = w_db w.
Proof.
  induction l as [|x l IH]; intros Hbody w; [done|].
  cbn [for_of]. unfold mbind, M_bind.
  pose proof (Hbody x (list_elem_of_here x l) w) as Hx.
  destruct (body x w) as [[[]|e] w1]; cbn [snd] in *; [|done].
  rewrite <- Hx. apply IH. intros y Hy. apply Hbody. by right.
Qed.

Lemma client_push_writes_nothing `{Entity A P} tenantId userId
    (reader : WireChange.t → Change.t P) (pending : list LocalRecord.t) w :
  (∀ c, Change.clientCreatedAt (reader c) = WireChange.clientCreatedAt c) →
  forallb has_createdAt pending = true →
  w_db (push_changes tenantId userId
          (Some ((λ r, reader (mapToServerFormat r)) <$> pending)) w).2 = w_db w.
Proof.
  intros Hreader Hpending. unfold push_changes. case_bool_decide; [|done].
  apply respects_eq_for_of. intros log (r & -> & Hr)%list_elem_of_fmap w'.
  rewrite forallb_forall in Hpending.
  apply list_elem_of_In, Hpending in Hr. unfold has_createdAt in Hr.
  destruct (LocalRecord.createdAt r) as [| |c] eqn:Hc; [done..|].
  by apply (timed_change_refused_or_dropped _ _ _ _ c); rewrite Hreader.
Qed.

(** X19.  A sync request of the client never changes a mood log, a journal
    entry or a check-in of the server: whatever the pending records are,
    the three tables are after the call what they were before it.  And when
    the first pending mood log is one the server does not hold, the call
    answers 500 with the encoder's error.  The [deviceId] and the [id] of
    that record are uuids. *)
Theorem client_sync_changes_no_row production req deviceId lastSync
    pendingMoodLogs pendingJournals pendingCheckIns w :
  forallb has_createdAt (pendingMoodLogs ++ pendingJournals ++ pendingCheckIns) = true →
  is_uuid deviceId = true →
  let body := syncRequest deviceId lastSync pendingMoodLogs pendingJournals
                          pendingCheckIns in
  let res := post_sync production req body w in
  moodLogs (w_db res.2) = moodLogs (w_db w)
  ∧ journalEntries (w_db res.2) = journalEntries (w_db w)
  ∧ checkIns (w_db res.2) = checkIns (w_db w)
  ∧ ∀ record rest,
      pendingMoodLogs = record :: rest →
      is_uuid (WireChange.id (mapToServerFormat record)) = true →
      moodLogs (w_db w) !! WireChange.id (mapToServerFormat record) = None →
      res.1 = errorHandler production TypeError.
Proof.
  rewrite !forallb_app, !andb_true_iff. intros (Hm & Hj & Hc) _. cbn zeta.
  assert (∀ w', w_db (push_phase req (syncRequest deviceId lastSync pendingMoodLogs
                                        pendingJournals pendingCheckIns) w').2
                = w_db w') as Hpush.
  { intros w'. unfold push_phase, syncRequest, mbind, M_bind.
    cbn [SyncRequest.changes SyncRequest.moodLogs SyncRequest.journalEntries
         SyncRequest.checkIns].
    pose proof (client_push_writes_nothing (AuthRequest.tenantId req)
                  (AuthRequest.userId req) as_moodLog pendingMoodLogs w'
                  (λ _, eq_refl) Hm) as H1.
    destruct (push_changes _ _ _ w') as [[[]|?] w1]; [|done]. cbn [snd] in H1.
    pose proof (client_push_writes_nothing (AuthRequest.tenantId req)
                  (AuthRequest.userId req) as_journalEntry pendingJournals w1
                  (λ _, eq_refl) Hj) as H2.
    destruct (push_changes _ _ _ w1) as [[[]|?] w2]; [|cbn in *; congruence].
    cbn [snd] in H2.
    pose proof (client_push_writes_nothing (AuthRequest.tenantId req)
                  (AuthRequest.userId req) as_checkIn pendingCheckIns w2
                  (λ _, eq_refl) Hc) as H3.
    destruct (push_changes _ _ _ w2) as [[[]|?] w3]; cbn in *; congruence. }
  assert (∀ {X} (f : DB → X), (∀ d m, f (set_syncMetadata m d) = f d) →
            f (w_db (post_sync production req
                       (syncRequest deviceId lastSync pendingMoodLogs pendingJournals
                          pendingCheckIns) w).2) = f (w_db w)) as Hframe.
  { intros X f Hf. rewrite post_sync_db, sync_post_push_phase.
    specialize (Hpush w).
    destruct (push_phase _ _ w) as [[[]|?] w3]; cbn [snd] in *; [|by rewrite Hpush].
    rewrite <- Hpush.
    apply (respects_sync_tail (same_on f)). intros d m. apply Hf. }
  split_and!; [by apply Hframe..|].
  intros record rest -> _ Hnew.
  unfold post_sync, asyncHandler, mbind, M_bind.
  rewrite sync_post_phases. unfold syncRequest.
  cbn [SyncRequest.changes SyncRequest.moodLogs fmap list_fmap push_changes length].
  rewrite bool_decide_eq_true_2 by lia.
  cbn [for_of]. unfold mbind, M_bind.
  destruct (push_change_new (H:=moodLogs_entity) (AuthRequest.tenantId req)
              (AuthRequest.userId req) (as_moodLog (mapToServerFormat record)) w Hnew)
    as [Hres _].
  cbn in Hm. apply andb_true_iff in Hm as [Hrec _]. unfold has_createdAt in Hrec.
  destruct (LocalRecord.createdAt record) as [| |c] eqn:Hcreated; [done..|].
  rewrite (inserted_row_timed _ _ _ _ c) in Hres by done.
  destruct (push_change _ _ _ w) as [r w1]. cbn [fst] in Hres. by subst r.
Qed.

(** * The further properties on sample runs *)

Section FurtherRuns.
Import Sample Fixture.

(** X3 at a sample: alice pushes an edit of [id_M]; her mood log [id_K] is
    as it was. *)
Lemma sync_touches_only_pushed_ids_witness :
  moodLogs (w_db (post_sync true alice (push_moods [edited]) (world db_all)).2) !! id_K
  = moodLogs (w_db (world db_all)) !! id_K.
Proof.
  refine (proj1 (sync_touches_only_pushed_ids true alice (push_moods [edited])
                   (world db_all) id_K _) _ _).
  - vm_compute. reflexivity.
  - vm_compute. reflexivity.
  - apply (bool_decide_unpack _). vm_compute. exact I.
Defined.





(** X8 at the same sample. *)
Lemma status_after_sync_witness :
  let w' := (post_sync true alice (push_moods [edited]) (world db_all)).2 in
  ∃ data,
    (get_sync_status true alice (Some (SyncRequest.deviceId (push_moods [edited]))) w').1
    = mkResponse 200 (DataJson data)
    ∧ ∀ tableName, tableName ∈ tables →
        ∃ id r, (id, r) ∈ data
          ∧ SyncMetadata.tableName r = tableName
          ∧ SyncMetadata.lastSyncedAt r = SyncResponse.lastSyncAt resp_A.
Proof.
  refine (status_after_sync true alice (push_moods [edited]) (world db_all) resp_A _ _).
  - vm_compute. reflexivity.
  - discriminate.
Defined.

(** X9 at a sample: the change [far_future] to alice's mood log. *)
Lemma applied_update_stamps_server_time_witness :
  ∃ row,
    ent_get (Entity:=moodLogs_entity)
      (db_after (push_change tenant_1 alice_id far_future) (world db_M))
      !! Change.id far_future
    = Some row
    ∧ Row.updatedAt row = write_time (world db_M)
    ∧ Row.syncedAt row = Some (write_time (world db_M))
    ∧ Row.isDeleted row = carried_or (Change.isDeleted far_future) (Row.isDeleted mood_M)
    ∧ ent_update (Change.attrs far_future) (Row.attrs mood_M) = Ok (Row.attrs row).
Proof.
  refine (applied_update_stamps_server_time tenant_1 alice_id far_future (world db_M)
            mood_M _ _ _); vm_compute; reflexivity.
Defined.

(** X10 at a sample: the mood log [new_A], as the client sends it. *)
Lemma pushed_change_is_never_inserted_witness :
  ∃ e, (push_change tenant_1 alice_id new_A (world db_M)).1 = Throw e
    ∧ db_after (push_change tenant_1 alice_id new_A) (world db_M) = w_db (world db_M)
    ∧ (∀ c, Change.clientCreatedAt new_A = Val c → e = TypeError).
Proof.
  refine (pushed_change_is_never_inserted tenant_1 alice_id new_A (world db_M) _ _);
    vm_compute; reflexivity.
Defined.

(** X11 at a sample: alice reads her mood log. *)
Lemma get_by_id_is_owner_scoped_witness :
  (asyncHandler_api true
     (get_by_id (H:=moodLogs_entity) "Mood log not found" alice id_M) (world db_M)).1
  = mkReply 200 (ApiResponse.mk true (Some (id_M, mood_M)) None None).
Proof.
  refine (proj1 (get_by_id_is_owner_scoped true "Mood log not found" alice id_M
                   (world db_M) _ _) mood_M _ _).
  - vm_compute. reflexivity.
  - vm_compute. reflexivity.
  - vm_compute. reflexivity.
  - split; vm_compute; reflexivity.
Defined.

(** X12 at a sample: alice deletes her mood log. *)
Lemma soft_delete_leaves_a_tombstone_witness :
  let w := world db_M in
  let res := asyncHandler_api true
               (soft_delete (H:=moodLogs_entity) "Mood log deleted successfully"
                  alice id_M) w in
  ent_get (w_db res.2) = <[id_M := tombstone (now w) mood_M]> (ent_get (w_db w)).
Proof.
  refine (proj1 (proj2 (soft_delete_leaves_a_tombstone true "Mood log deleted successfully"
                          alice id_M (world db_M) _ _)) mood_M _ _).
  - vm_compute. reflexivity.
  - vm_compute. reflexivity.
  - vm_compute. reflexivity.
  - split; vm_compute; reflexivity.
Defined.


(** X14 at a sample: alice, crew, may not review. *)
Lemma review_requires_psychologist_witness :
  patch_checkin_review true alice id_C (Val true) Absent (world db_C)
  = (mkReply 403 (ApiResponse.mk false None (Some (Literal "Insufficient permissions")) None),
     world db_C).
Proof.
  refine (review_requires_psychologist true alice id_C (Val true) Absent (world db_C) _).
  discriminate.
Defined.


(** X16 at a sample: the global resource is visible to alice. *)
Lemma get_resource_visibility_witness :
  (get_resource true alice id_R (world db_R)).1
  = mkReply 200 (ApiResponse.mk true (Some (id_R, resource_R)) None None).
Proof.
  refine (proj1 (get_resource_visibility true alice id_R (world db_R) _ _) resource_R _ _).
  - vm_compute. reflexivity.
  - vm_compute. reflexivity.
  - vm_compute. reflexivity.
  - split; [vm_compute; reflexivity|right; vm_compute; reflexivity].
Defined.

(** X17 at a sample: alice deletes [id_M] and syncs. *)
Lemma deleted_mood_is_pulled_as_tombstone_witness :
  (id_M, tombstone (now (world db_M)) mood_M)
  ∈ SyncResponse.moodLogs (SyncResponse.serverChanges resp_M).
Proof.
  refine (deleted_mood_is_pulled_as_tombstone true alice id_M bootstrap (world db_M)
            mood_M resp_M _ _ _ _ _ _ _ _).
  - vm_compute. reflexivity.
  - vm_compute. reflexivity.
  - vm_compute. reflexivity.
  - vm_compute. reflexivity.
  - split; vm_compute; reflexivity.
  - apply (bool_decide_unpack _). vm_compute. exact I.
  - vm_compute. reflexivity.
  - vm_compute. reflexivity.
Defined.

(** X18 at a sample: the check-in completed on the device. *)
Lemma client_change_is_never_applied_witness :
  let c := mapToServerFormat local_C in
  refused_or_dropped tenant_1 alice_id (as_moodLog c) (world db_C)
  ∧ refused_or_dropped tenant_1 alice_id (as_journalEntry c) (world db_C)
  ∧ refused_or_dropped tenant_1 alice_id (as_checkIn c) (world db_C).
Proof.
  refine (client_change_is_never_applied tenant_1 alice_id local_C (world db_C) _ _);
    vm_compute; reflexivity.
Defined.

(** X19 at a sample: the device sends the edit of [id_M] and the two
    check-ins. *)
Lemma client_sync_changes_no_row_witness :
  let body := syncRequest device None [local_M] [] [local_C; local_new] in
  let res := post_sync true alice body (world db_all) in
  moodLogs (w_db res.2) = moodLogs (w_db (world db_all))
  ∧ journalEntries (w_db res.2) = journalEntries (w_db (world db_all))
  ∧ checkIns (w_db res.2) = checkIns (w_db (world db_all))
  ∧ ∀ record rest,
      [local_M] = record :: rest →
      is_uuid (WireChange.id (mapToServerFormat record)) = true →
      moodLogs (w_db (world db_all)) !! WireChange.id (mapToServerFormat record) = None →
      res.1 = errorHandler true TypeError.
Proof.
  refine (client_sync_changes_no_row true alice device None [local_M] []
            [local_C; local_new] (world db_all) _ _); vm_compute; reflexivity.
Defined.

(** X20 at a sample: the change [far_future] to alice's mood log. *)
Lemma applied_update_keeps_the_creation_columns_witness :
  let db' := db_after (push_change tenant_1 alice_id far_future) (world db_M) in
  ∃ row, ent_get (Entity:=moodLogs_entity) db' !! Change.id far_future = Some row
    ∧ Col.nullable (Change.clientCreatedAt far_future) = None
    ∧ Col.nullable (Change.createdAt far_future) = None
    ∧ Row.clientCreatedAt row = Row.clientCreatedAt mood_M
    ∧ Row.createdAt row = Row.createdAt mood_M
    ∧ Row.tenantId row = tenant_1
    ∧ Row.userId row = alice_id
    ∧ ∀ id, id ≠ Change.id far_future
            → ent_get (Entity:=moodLogs_entity) db' !! id
              = ent_get (Entity:=moodLogs_entity) (w_db (world db_M)) !! id.
Proof.
  refine (applied_update_keeps_the_creation_columns tenant_1 alice_id far_future
            (world db_M) mood_M _ _ _); vm_compute; reflexivity.
Defined.

End FurtherRuns.
